(** * patr: the content-addressed publish pipeline

    A shallow embedding of the two Go packages [feed] and [ipfs] of
    allisterb/patr, and the properties of the publish pipeline they
    implement: the link writer, the local store adapter, the name-record
    publisher and the profile publish operation.

    Go functions that touch the IPFS node or the Web3.Storage service are
    written in a small state monad over [World]; a Go [error] value is an
    [option error] ([None] is [nil]); a run-time panic is an outcome of its
    own.  Calls into third-party libraries are resolved by an environment
    [Env] that fixes, for one run, which of them fail and what the pure
    ones compute. *)

From Stdlib Require Import ZArith List String Lia.
From Stdlib.Strings Require Import Byte.
From stdpp Require Import base decidable countable gmap strings list.

Local Open Scope Z_scope.
Local Open Scope string_scope.
Local Open Scope list_scope.

(** ** Go values *)

Abbreviation bytes := (list byte).

#[global] Instance byte_eq_decision : EqDecision byte := Byte.byte_eq_dec.
#[global] Instance byte_countable : Countable byte :=
  inj_countable Byte.to_N Byte.of_N Byte.of_to_N.

(** Go's [error] interface.  [io_EOF] is the sentinel of package io;
    [ErrLib] is an error value handed back by a library call; [Errorf] is
    an error built by [fmt.Errorf] around a cause. *)
Inductive error : Type :=
| io_EOF
| ErrNotFound
| ErrLib (what : string)
| Errorf (msg : string) (cause : error).

#[global] Instance error_eq_decision : EqDecision error.
Proof. solve_decision. Defined.

(** A multi-value Go return [(v, err)]. *)
Abbreviation ret2 A := (A * option error)%type.

(** ** Content identifiers (go-cid) *)

Record Prefix := mkPrefix {
  Version : Z;
  Codec : Z;
  MhType : Z;
  MhLength : Z
}.

#[global] Instance Prefix_eq_decision : EqDecision Prefix.
Proof. solve_decision. Defined.

(** Multicodec table entries used by the program. *)
Definition cid_DagJSON : Z := 0x0129.
Definition mh_SHA3_384 : Z := 0x15.

Record Cid := mkCid {
  cid_prefix : Prefix;
  cid_hash : bytes
}.

#[global] Instance Cid_eq_decision : EqDecision Cid.
Proof. solve_decision. Defined.

#[global] Instance Cid_countable : Countable Cid :=
  inj_countable'
    (fun c => (Version (cid_prefix c), Codec (cid_prefix c),
               MhType (cid_prefix c), MhLength (cid_prefix c), cid_hash c))
    (fun t => match t with
              | (v, c, t, l, h) => mkCid (mkPrefix v c t l) h
              end)
    (fun c => match c with mkCid (mkPrefix _ _ _ _) _ => eq_refl end).

(** [cid.Undef], the zero Cid. *)
Definition cid_Undef : Cid := mkCid (mkPrefix 0 0 0 0) [].

(** A resolved path of package coreiface/path, built by [IpldPath] or
    [IpfsPath] from a Cid. *)
Inductive Path :=
| IpldPath (c : Cid)
| IpfsPath (c : Cid).

Definition Path_Cid (p : Path) : Cid :=
  match p with IpldPath c | IpfsPath c => c end.

#[global] Instance Path_eq_decision : EqDecision Path.
Proof. solve_decision. Defined.

(** ** bytes.Buffer

    The buffer is represented by its unread portion [b.buf[b.off:]]. *)
Module Buffer.

Definition t := bytes.

Definition empty : t := [].

(** [Buffer.Bytes] of package bytes. *)
Definition Bytes (b : t) : bytes := b.

(** [Buffer.Write]: appends, never fails. *)
Definition Write (b : t) (p : bytes) : (nat * option error) * t :=
  ((length p, None), b ++ p).

(** [Buffer.Read]: copies the next [len(p)] unread bytes INTO [p] and
    consumes them; on an empty buffer it returns [io.EOF] (or [nil] when
    [p] has length zero).  The third component is the caller's slice [p]
    after the call. *)
Definition Read (b : t) (p : bytes) : (nat * option error) * bytes * t :=
  match b with
  | [] =>
      if Nat.eqb (length p) 0 then ((0%nat, None), p, [])
      else ((0%nat, Some io_EOF), p, [])
  | _ =>
      let n := Nat.min (length p) (length b) in
      ((n, None), take n b ++ drop n p, drop n b)
  end.

End Buffer.

(** ** Records of the program *)

(** [feed.User] *)
Record User := mkUser {
  Did : string;
  NostrPrivKey : bytes;
  NostrPubkey : bytes;
  IPNSPrivKey : bytes;
  IPNSPubKey : bytes
}.

(** The zero value [User{}]. *)
Definition User_zero : User := mkUser "" [] [] [] [].

(** [feed.Profile] *)
Record Profile := mkProfile { profile_Did : string }.

(** [nostr.Event], by the fields the node is built from. *)
Record NostrEvent := mkNostrEvent {
  evt_ID : string;
  evt_PubKey : string;
  evt_CreatedAt : Z;
  evt_Kind : Z;
  evt_Tags : list (string * string);
  evt_Content : string;
  evt_Sig : string
}.

(** An IPNS record as built by [ipns.Create] and [ipns.EmbedPublicKey]. *)
Record IpnsRecord := mkIpnsRecord {
  rec_value : string;
  rec_sequence : Z;
  rec_validity : Z;
  rec_signer : bytes;
  rec_pubkey : option bytes
}.

(** [ipfs.IPFSLinkWriter]; the handles [ctx], [ipfs], [w3s] and [log] all
    point into the one [World] below. *)
Record IPFSLinkWriter := mkLinkWriter {
  lw_cid : Cid;
  lw_data : Buffer.t
}.

(** ** The environment of one run *)

(** The library calls the program makes. *)
Inductive Op :=
| OpStat | OpReadFile
| OpDidParse | OpResolveENS
| OpNewNode | OpNewCoreAPI | OpPubSubSubscribe | OpPubSubPublish
| OpDagJsonEncode | OpPrefixSum | OpNewBlockWithCid
| OpPinningAdd | OpNamePublish
| OpBlockStat | OpBlockGet | OpReadAll
| OpW3SNewClient | OpWriteCar | OpPutCar | OpGetName | OpPutName
| OpUnmarshalPrivateKey | OpUnmarshalPublicKey | OpIDFromPublicKey
| OpIpnsCreate | OpEmbedPublicKey | OpBuildMap.

#[global] Instance Op_eq_decision : EqDecision Op.
Proof. solve_decision. Defined.

(** [fault op] is the error the library call [op] fails with in this run,
    for a reason of its own (network, disk, malformed key, ...), or [None]
    when it does not fail that way.  The other fields are what the pure
    library functions compute when they succeed. *)
Class Env := {
  fault : Op -> option error;
  (** [cid.CidFromBytes] on a binary key *)
  CidFromBytes : bytes -> Cid + error;
  (** the multihash digest of given type and length *)
  mh_digest : Z -> Z -> bytes -> bytes;
  (** [dagjson.Encode] of a bound [Profile] node *)
  dagjson_bytes : Profile -> bytes;
  (** the DAG-JSON bytes of the node built from a Nostr event *)
  dagjson_event : NostrEvent -> bytes;
  (** [Cid.Bytes], the binary form of a Cid *)
  cid_Bytes : Cid -> bytes;
  (** [Cid.String] *)
  cid_String : Cid -> string;
  (** base36 text of the peer id of a public key *)
  pubkey_name : bytes -> string;
  (** [json.Unmarshal] into a [User] *)
  json_User : bytes -> User + error;
  (** the files on disk: contents by path *)
  fs : string -> option bytes;
  (** why [ipldlegacy.DecodeNode] rejects these block bytes under the codec
      of this Cid, if it does *)
  decode_error : Cid -> bytes -> option error;
  (** how many bytes a failing stream delivers before its error *)
  short_read : nat;
  (** [time.Now()] in nanoseconds *)
  time_Now : Z
}.

(** ** The world the program acts on *)

(** What the local node and the remote service have been made to do. *)
Inductive Event :=
| EvNodeStarted
| EvNodeClosed
| EvLocalPin (c : Cid)
| EvLocalName (p : Path)
| EvRemoteCar (root : Cid)
| EvRemoteName (name : string) (r : IpnsRecord).

#[global] Instance IpnsRecord_eq_decision : EqDecision IpnsRecord.
Proof. solve_decision. Defined.

#[global] Instance Event_eq_decision : EqDecision Event.
Proof. solve_decision. Defined.

Record World := mkWorld {
  (** block store of the local IPFS node *)
  blockstore : gmap Cid bytes;
  (** pinned roots of the local node *)
  pins : gset Cid;
  (** content archives held by Web3.Storage, by root *)
  w3s_cars : gset Cid;
  (** name records held by Web3.Storage, by lookup key *)
  w3s_names : gmap string IpnsRecord;
  (** link writers allocated by [OpenWrite]; a pointer is an index *)
  writers : list IPFSLinkWriter;
  (** the history of effects, oldest first *)
  events : list Event
}.

Definition World_empty : World := mkWorld ∅ ∅ ∅ ∅ [] [].

Definition emit (e : Event) (w : World) : World :=
  mkWorld (blockstore w) (pins w) (w3s_cars w) (w3s_names w) (writers w)
          (events w ++ [e]).

(** ** The monad of Go function bodies *)

Inductive outcome (A : Type) : Type :=
| Returned (a : A)
| Panicked (why : string).
Arguments Returned {A} a.
Arguments Panicked {A} why.

Definition Go (A : Type) : Type := World -> outcome A * World.

Definition ret {A} (a : A) : Go A := fun w => (Returned a, w).

Definition bind {A B} (m : Go A) (k : A -> Go B) : Go B :=
  fun w => match m w with
           | (Returned a, w') => k a w'
           | (Panicked why, w') => (Panicked why, w')
           end.

Definition panic {A} (why : string) : Go A := fun w => (Panicked why, w).

Definition gets {A} (f : World -> A) : Go A := fun w => (Returned (f w), w).

Definition modify (f : World -> World) : Go unit := fun w => (Returned tt, f w).

Declare Scope go_scope.
Delimit Scope go_scope with go.
Notation "x <- m ;; k" := (bind m (fun x => k))
  (at level 100, m at next level, right associativity) : go_scope.
Notation "m ;;; k" := (bind m (fun _ => k))
  (at level 100, right associativity) : go_scope.
Local Open Scope go_scope.

(** ** Library calls

    The local node's [iface.CoreAPI], packages io, go-block-format and
    go-ipld-legacy, acting on the [World]. *)

Section Library.
Context {E : Env}.

(** [blocks.BasicBlock] *)
Record Block := mkBlock { blk_data : bytes; blk_cid : Cid }.

(** [ipldlegacy.LegacyNode]: a block together with its decoded node. *)
Record LegacyNode := mkLegacyNode { ln_block : Block }.

(** An [io.Reader] over a fetched block: the bytes it delivers and the
    error (other than EOF) it ends with. *)
Record Reader := mkReader { rd_data : bytes; rd_err : option error }.

(** [bytes.NewReader] *)
Definition bytes_NewReader (b : bytes) : Reader := mkReader b None.

(** [io.ReadAll] *)
Definition io_ReadAll (r : Reader) : ret2 bytes := (rd_data r, rd_err r).

(** [blocks.NewBlockWithCid]: a nil block and an error when the library
    rejects the pair (hash check in debug mode). *)
Definition NewBlockWithCid (data : bytes) (c : Cid) : ret2 (option Block) :=
  match fault OpNewBlockWithCid with
  | Some e => (None, Some e)
  | None => (Some (mkBlock data c), None)
  end.

(** [ipldlegacy.DecodeNode]: reads the Cid of the block (a nil block
    panics) and decodes its bytes; a nil node on error. *)
Definition DecodeNode (b : option Block) : Go (ret2 (option LegacyNode)) :=
  match b with
  | None => panic "nil pointer dereference"
  | Some b =>
      match decode_error (blk_cid b) (blk_data b) with
      | Some e => ret (None, Some e)
      | None => ret (Some (mkLegacyNode b), None)
      end
  end.

(** [ul.RawData()] through a possibly nil node. *)
Definition RawData (ul : option LegacyNode) : Go bytes :=
  match ul with
  | None => panic "nil pointer dereference"
  | Some n => ret (blk_data (ln_block n))
  end.

(** [Api.Block().Stat]: succeeds exactly on a block the store holds,
    unless the node itself fails. *)
Definition Block_Stat (c : Cid) : Go (option error) :=
  gets (fun w =>
    match fault OpBlockStat with
    | Some e => Some e
    | None => match blockstore w !! c with
              | Some _ => None
              | None => Some ErrNotFound
              end
    end).

(** [Api.Block().Get] *)
Definition Block_Get (c : Cid) : Go (Reader + error) :=
  gets (fun w =>
    match fault OpBlockGet with
    | Some e => inr e
    | None =>
        match blockstore w !! c with
        | None => inr ErrNotFound
        | Some data =>
            match fault OpReadAll with
            | Some e => inl (mkReader (take short_read data) (Some e))
            | None => inl (mkReader data None)
            end
        end
    end).

Definition store_block (b : Block) (w : World) : World :=
  mkWorld (<[blk_cid b := blk_data b]> (blockstore w))
          ({[blk_cid b]} ∪ pins w)
          (w3s_cars w) (w3s_names w) (writers w)
          (events w ++ [EvLocalPin (blk_cid b)]).

(** [Api.Dag().Pinning().Add]: stores the block of the node and pins it;
    a nil node panics. *)
Definition Pinning_Add (n : option LegacyNode) : Go (option error) :=
  match n with
  | None => panic "nil pointer dereference"
  | Some n =>
      match fault OpPinningAdd with
      | Some e => ret (Some e)
      | None => modify (store_block (ln_block n)) ;;; ret None
      end
  end.

(** [Prefix.Sum]: the Cid of the data under the given parameters. *)
Definition Prefix_Sum (p : Prefix) (data : bytes) : Cid + error :=
  match fault OpPrefixSum with
  | Some e => inr e
  | None => inl (mkCid p (mh_digest (MhType p) (MhLength p) data))
  end.

(** [dagjson.Encode] of the node bound to a profile. *)
Definition dagjson_Encode (p : Profile) : bytes + error :=
  match fault OpDagJsonEncode with
  | Some e => inr e
  | None => inl (dagjson_bytes p)
  end.

(** [Path.String] *)
Definition Path_String (p : Path) : string :=
  match p with
  | IpldPath c => String.append "/ipld/" (cid_String c)
  | IpfsPath c => String.append "/ipfs/" (cid_String c)
  end.

(** [Api.Name().Publish]: announces a record for the path under the
    node's own key; the published entry on success. *)
Definition Name_Publish (p : Path) : Go (option Path * option error) :=
  match fault OpNamePublish with
  | Some e => ret (None, Some e)
  | None => modify (emit (EvLocalName p)) ;;; ret (Some p, None)
  end.

End Library.

(** ** The Web3.Storage client (package w3s) *)

Section W3S.
Context {E : Env}.

(** Modelled from the spec: package w3s of this repository, the remote
    pinning service "consumed via upload-archive(bytes) -> id,
    get-name(name) -> record, put-name(record, name) -> error; all keyed by
    an opaque authentication token".  The service keeps archives by root
    Cid (so a second upload of a root adds nothing) and one record per
    name. *)
Definition w3s_NewClient (token : string) : option error :=
  fault OpW3SNewClient.

(** A content archive: its root and the blocks it carries. *)
Record Car := mkCar { car_root : Cid; car_blocks : list (Cid * bytes) }.

(** Modelled from the spec: [w3s.WriteCar] serialises the block of the
    root read from the node's DAG service "into a single portable content
    archive". *)
Definition w3s_WriteCar (root : Cid) : Go (option Car * option error) :=
  gets (fun w =>
    match fault OpWriteCar with
    | Some e => (None, Some e)
    | None => match blockstore w !! root with
              | None => (None, Some ErrNotFound)
              | Some data => (Some (mkCar root [(root, data)]), None)
              end
    end).

Definition add_car (c : Car) (w : World) : World :=
  mkWorld (blockstore w) (pins w) ({[car_root c]} ∪ w3s_cars w)
          (w3s_names w) (writers w) (events w ++ [EvRemoteCar (car_root c)]).

(** Modelled from the spec: [Client.PutCar], "upload-archive(bytes) -> id". *)
Definition w3s_PutCar (c : Car) : Go (Cid * option error) :=
  match fault OpPutCar with
  | Some e => ret (cid_Undef, Some e)
  | None => modify (add_car c) ;;; ret (car_root c, None)
  end.

(** Modelled from the spec: [Client.GetName], "get-name(name) -> record".
    A transport failure is the fault of the call; a name the service does
    not hold gives no record and the not-found error. *)
Definition w3s_GetName (key : string) : Go (option IpnsRecord * option error) :=
  gets (fun w =>
    match fault OpGetName with
    | Some e => (None, Some e)
    | None => match w3s_names w !! key with
              | Some r => (Some r, None)
              | None => (None, Some ErrNotFound)
              end
    end).

Definition set_name (name : string) (r : IpnsRecord) (w : World) : World :=
  mkWorld (blockstore w) (pins w) (w3s_cars w)
          (<[name := r]> (w3s_names w)) (writers w)
          (events w ++ [EvRemoteName name r]).

(** Modelled from the spec: [Client.PutName],
    "put-name(record, name) -> error". *)
Definition w3s_PutName (r : IpnsRecord) (name : string) : Go (option error) :=
  match fault OpPutName with
  | Some e => ret (Some e)
  | None => modify (set_name name r) ;;; ret None
  end.

End W3S.

(** ** Package ipfs *)

Section PackageIpfs.
Context {E : Env}.

(** A [datamodel.Link] is a [cidlink.Link]: a Cid; [Link_Binary] is its
    [Binary()] form. *)
Definition Link := Cid.
Definition Link_Binary (l : Link) : bytes := cid_Bytes l.

(** [IPFSCore]: the handle on the started node; its [W3S] client was made
    with this token. *)
Record IPFSCore := mkIPFSCore { core_W3S_token : string }.

Definition set_writer (ptr : nat) (lw : IPFSLinkWriter) (w : World) : World :=
  mkWorld (blockstore w) (pins w) (w3s_cars w) (w3s_names w)
          (<[ptr := lw]> (writers w)) (events w).

Definition new_writer (lw : IPFSLinkWriter) (w : World) : World :=
  mkWorld (blockstore w) (pins w) (w3s_cars w) (w3s_names w)
          (writers w ++ [lw]) (events w).

(** [func (w *IPFSLinkWriter) Write(d []byte) (int, error)]:
    [return w.data.Read(d)].  Returns the pair and the slice [d] as the
    call leaves it. *)
Definition IPFSLinkWriter_Write (ptr : nat) (d : bytes)
  : Go ((nat * option error) * bytes) :=
  fun w =>
    match writers w !! ptr with
    | None => (Panicked "nil pointer dereference", w)
    | Some lw =>
        match Buffer.Read (lw_data lw) d with
        | (r, d', data') =>
            (Returned (r, d'), set_writer ptr (mkLinkWriter (lw_cid lw) data') w)
        end
    end.

Definition not_nil (err : option error) : bool :=
  match err with Some _ => true | None => false end.

(** [func (store *IPFSCore) Has(ctx, key string) (bool, error)] *)
Definition Has (key : bytes) : Go (bool * option error) :=
  match CidFromBytes key with
  | inr err => ret (false, Some err)
  | inl cid =>
      err <- Block_Stat cid ;;
      ret (not_nil err, err)
  end.

(** [func (store *IPFSCore) Get(ctx, key string) ([]byte, error)] *)
Definition Get (key : bytes) : Go (ret2 bytes) :=
  match CidFromBytes key with
  | inr err => ret ([], Some err)
  | inl k =>
      rg <- Block_Get k ;;
      match rg with
      | inr err => ret ([], Some err)
      | inl r =>
          let buf := fst (io_ReadAll r) in
          let b := fst (NewBlockWithCid buf k) in
          ud <- DecodeNode b ;;
          raw <- RawData (fst ud) ;;
          ret (raw, snd ud)
      end
  end.

(** [func PinIPLDBlockToW3S(ctx, ipfsNode, authToken, block) (cid.Cid, error)] *)
Definition PinIPLDBlockToW3S (authToken : string) (block : option Block)
  : Go (Cid * option error) :=
  match block with
  | None => panic "nil pointer dereference"
  | Some block =>
      match w3s_NewClient authToken with
      | Some err => ret (cid_Undef, Some err)
      | None =>
          wc <- w3s_WriteCar (blk_cid block) ;;
          match wc with
          | (_, Some err) => ret (cid_Undef, Some err)
          | (None, None) => panic "nil pointer dereference"
          | (Some car, None) =>
              pc <- w3s_PutCar car ;;
              match snd pc with
              | Some err => ret (cid_Undef, Some err)
              | None => ret (fst pc, None)
              end
          end
      end
  end.

(** [func (store *IPFSCore) Put(ctx, key string, data []byte) error] *)
Definition Put (store : IPFSCore) (key : bytes) (data : bytes) : Go (option error) :=
  match CidFromBytes key with
  | inr err => ret (Some err)
  | inl k =>
      let b := fst (NewBlockWithCid data k) in
      ud <- DecodeNode b ;;
      match snd ud with
      | Some err => ret (Some err)
      | None =>
          err <- Pinning_Add (fst ud) ;;
          match err with
          | Some err => ret (Some err)
          | None =>
              pc <- PinIPLDBlockToW3S (core_W3S_token store) b ;;
              ret (snd pc)
          end
      end
  end.

(** [func (store *IPFSCore) OpenRead(lnkCtx, lnk) (io.Reader, error)] *)
Definition OpenRead (lnk : Link) : Go (option Reader * option error) :=
  match CidFromBytes (Link_Binary lnk) with
  | inr err => ret (None, Some err)
  | inl k =>
      rg <- Block_Get k ;;
      match rg with
      | inr err => ret (None, Some err)
      | inl r =>
          let buf := fst (io_ReadAll r) in
          let b := fst (NewBlockWithCid buf k) in
          ud <- DecodeNode b ;;
          raw <- RawData (fst ud) ;;
          ret (Some (bytes_NewReader raw), snd ud)
      end
  end.

(** [func (store *IPFSCore) OpenWrite(lnkCtx, lnk)
      (io.Writer, linking.BlockWriteCommitter, error)].
    The writer [&lw] is the address of a new [IPFSLinkWriter]; the
    committer [lw.BlockWriteCommit] is [BlockWriteCommit] at that same
    address. *)
Definition OpenWrite (lnk : Link) : Go (option nat * option error) :=
  match CidFromBytes (Link_Binary lnk) with
  | inr err => ret (None, Some err)
  | inl k =>
      fun w =>
        (Returned (Some (length (writers w)), None),
         new_writer (mkLinkWriter k Buffer.empty) w)
  end.

(** [func (w *IPFSLinkWriter) BlockWriteCommit(lnk) error]: the body is
    commented out in the source, what is left is [return nil]. *)
Definition BlockWriteCommit (ptr : nat) (lnk : Link) : Go (option error) :=
  ret None.

(** [func GetIPFSNodeIdentity(pubb []byte) peer.ID]: panics on a key it
    cannot unmarshal or derive an id from.  The id itself only reaches the
    log. *)
Definition GetIPFSNodeIdentity (pubb : bytes) : Go unit :=
  match fault OpUnmarshalPublicKey with
  | Some _ => panic "could not unmarshal public key"
  | None =>
      match fault OpIDFromPublicKey with
      | Some _ => panic "could not get peer ID"
      | None => ret tt
      end
  end.

(** [func GetIPNSPublicKeyName(pubb []byte) (string, error)] *)
Definition GetIPNSPublicKeyName (pubb : bytes) : ret2 string :=
  match fault OpUnmarshalPublicKey with
  | Some err => ("", Some err)
  | None =>
      match fault OpIDFromPublicKey with
      | Some err => ("", Some err)
      | None => (pubkey_name pubb, None)
      end
  end.

(** [func StartIPFSNode(ctx, privkey, pubkey)], returning a pointer to
    the [IPFSCore] and an error.
    [GetIPFSNodeIdentity] is evaluated for the first log line and again in
    [initIPFSRepo]; the errors of [Subscribe] and [Publish] on the pubsub
    topic are dropped by the source and the function returns [e], which is
    nil there. *)
Definition StartIPFSNode (privkey pubkey : bytes) : Go (IPFSCore + error) :=
  GetIPFSNodeIdentity pubkey ;;;
  GetIPFSNodeIdentity pubkey ;;;
  match fault OpNewNode with
  | Some err => GetIPFSNodeIdentity pubkey ;;; ret (inr err)
  | None =>
      modify (emit EvNodeStarted) ;;;
      match fault OpNewCoreAPI with
      | Some e => ret (inr e)
      | None =>
          match w3s_NewClient "none" with
          | Some err => ret (inr err)
          | None => ret (inl (mkIPFSCore "none"))
          end
      end
  end.

(** The closure [shutdown] made by [StartIPFSNode]: [node.Close()]. *)
Definition Shutdown (core : IPFSCore) : Go unit :=
  modify (emit EvNodeClosed).

(** [func PublishIPNSRecordForDAGNode(ctx, ipfscore, authtoken, cid,
      keyname, privkey, pubkey) error] *)
Definition PublishIPNSRecordForDAGNode (c : Cid) (keyname : string)
  : Go (option error) :=
  let p := IpldPath c in
  r <- Name_Publish p ;;
  match snd r with
  | Some err =>
      ret (Some (Errorf
        (String.append "error publishing IPNS record using IPFS node key " keyname)
        err))
  | None => ret None
  end.

(** [time.Hour * 48] in nanoseconds. *)
Definition validity_window : Z := 48 * 3600 * 1000000000.

(** A [uint64] sum. *)
Definition uint64_add (a b : Z) : Z := (a + b) mod 2 ^ 64.

(** [func PublishIPNSRecordForDAGNodeToW3S(ctx, authToken, cid, privkey,
      pubkey) error] *)
Definition PublishIPNSRecordForDAGNodeToW3S
    (authToken : string) (c : Cid) (privkey pubkey : bytes) : Go (option error) :=
  match GetIPNSPublicKeyName pubkey with
  | (_, Some err) => ret (Some err)
  | (name, None) =>
      let p := Path_String (IpfsPath c) in
      match w3s_NewClient authToken with
      | Some err => ret (Some err)
      | None =>
          match fault OpUnmarshalPrivateKey with
          | Some err => ret (Some err)
          | None =>
              rg <- w3s_GetName p ;;
              let seq :=
                match rg with
                | (Some r, None) => uint64_add (rec_sequence r) 1
                | _ => 1
                end in
              match fault OpIpnsCreate with
              | Some err => ret (Some err)
              | None =>
                  let nr := mkIpnsRecord p seq (time_Now + validity_window)
                                         privkey None in
                  match fault OpUnmarshalPublicKey with
                  | Some err => ret (Some err)
                  | None =>
                      match fault OpEmbedPublicKey with
                      | Some err => ret (Some err)
                      | None =>
                          let nr := mkIpnsRecord (rec_value nr) (rec_sequence nr)
                                      (rec_validity nr) (rec_signer nr)
                                      (Some pubkey) in
                          w3s_PutName nr name
                      end
                  end
              end
          end
      end
  end.

(** The Cid parameters written out in [PutNostrEventAsIPLDLink]. *)
Definition PutNostrEvent_Prefix : Prefix :=
  mkPrefix 1 cid_DagJSON mh_SHA3_384 48.

(** [LinkSystem.Store] of go-ipld-prime on the link system that
    [StartIPFSNode] sets up with [SetWriteStorage(&core)]: the encoded
    node is hashed under the prototype's prefix and handed to [Put] under
    the binary form of the resulting link. *)
Definition LS_Store (store : IPFSCore) (lp : Prefix) (encoded : bytes)
  : Go (option Link * option error) :=
  let lnk := mkCid lp (mh_digest (MhType lp) (MhLength lp) encoded) in
  err <- Put store (Link_Binary lnk) encoded ;;
  ret (Some lnk, err).

(** [func PutNostrEventAsIPLDLink(ctx, ipfs, evt) (datamodel.Link, error)] *)
Definition PutNostrEventAsIPLDLink (ipfs : IPFSCore) (evt : NostrEvent)
  : Go (option Link * option error) :=
  match fault OpBuildMap with
  | Some err =>
      ret (None, Some (Errorf
        (String.append "could not create IPLD node from Nostr event " (evt_ID evt))
        err))
  | None =>
      let lp := PutNostrEvent_Prefix in
      LS_Store ipfs lp (dagjson_event evt)
  end.

End PackageIpfs.

(** ** Package feed *)

Section PackageFeed.
Context {E : Env}.

(** [node.CurrentConfig], by the fields the publish operation reads, and
    whether the configuration has been initialised. *)
Record Config := mkConfig {
  cfg_Did : string;
  cfg_InfuraSecretKey : string;
  cfg_W3SSecretKey : string;
  cfg_IPFSPrivKey : bytes;
  cfg_IPFSPubKey : bytes;
  cfg_Initialized : bool
}.

(** [os.Stat] and [os.ReadFile] *)
Definition os_Stat (file : string) : option error :=
  match fault OpStat with
  | Some e => Some e
  | None => match fs file with Some _ => None | None => Some ErrNotFound end
  end.

Definition os_ReadFile (file : string) : ret2 bytes :=
  match fault OpReadFile with
  | Some e => ([], Some e)
  | None => match fs file with
            | Some u => (u, None)
            | None => ([], Some ErrNotFound)
            end
  end.

(** [json.Unmarshal(u, &user)]: the error, and [user] after the call. *)
Definition json_Unmarshal (u : bytes) (user : User) : option error * User :=
  match json_User u with
  | inl v => (None, v)
  | inr e => (Some e, user)
  end.

(** [func LoadUser(file string) (User, error)].  The variable [err] of the
    third branch is the one assigned by [os.ReadFile]. *)
Definition LoadUser (file : string) : ret2 User :=
  match os_Stat file with
  | Some err => (User_zero, Some err)
  | None =>
      match os_ReadFile file with
      | (u, err) =>
          match err with
          | Some _ => (User_zero, err)
          | None =>
              let user := User_zero in
              match json_Unmarshal u user with
              | (Some _, _) => (User_zero, err)
              | (None, user) => (user, None)
              end
          end
      end
  end.

(** Modelled from the spec: [node.PanicIfNotInitialized] of package node,
    part of "configuration loading"; it panics unless the configuration
    has been initialised. *)
Definition PanicIfNotInitialized (cfg : Config) : Go unit :=
  if cfg_Initialized cfg then ret tt else panic "node is not initialized".

(** The Cid parameters written out in [CreateProfile]. *)
Definition cidprefix : Prefix := mkPrefix 1 cid_DagJSON mh_SHA3_384 48.

(** Modelled from the spec: [ipfs.PutIPFSDAGBlockToW3S], the Remote
    Archival Adapter "put(block) -> (remote-id, error)", which "serializes
    the target block ... into a single portable content archive, then
    uploads that archive to the remote service"; this is what
    [PinIPLDBlockToW3S] of the same package does with the same
    parameters. *)
Definition PutIPFSDAGBlockToW3S (authToken : string) (block : option Block)
  : Go (Cid * option error) :=
  PinIPLDBlockToW3S authToken block.

(** [func CreateProfile(ctx context.Context) error].  [ipfsShutdown] is
    the shutdown closure of the started node.  Of the parameters of
    [PublishIPNSRecordForDAGNode] the call site fills the context, the
    node and the Cid; the key name only reaches the error text. *)
Definition CreateProfile (cfg : Config) : Go (option error) :=
  match fault OpDidParse with
  | Some err => ret (Some err)
  | None =>
  PanicIfNotInitialized cfg ;;;
  match fault OpResolveENS with
  | Some err => ret (Some err)
  | None =>
  started <- StartIPFSNode (cfg_IPFSPrivKey cfg) (cfg_IPFSPubKey cfg) ;;
  match started with
  | inr err => ret (Some err)
  | inl ipfsNode =>
  let ipfsShutdown := Shutdown ipfsNode in
  let profile := mkProfile (cfg_Did cfg) in
  match dagjson_Encode profile with
  | inr err => ipfsShutdown ;;; ret (Some err)
  | inl buf =>
  match Prefix_Sum cidprefix buf with
  | inr err => ipfsShutdown ;;; ret (Some err)
  | inl xcid =>
  match NewBlockWithCid buf xcid with
  | (_, Some err) => ipfsShutdown ;;; ret (Some err)
  | (None, None) => panic "nil pointer dereference"
  | (Some blk, None) =>
  err <- Pinning_Add (Some (mkLegacyNode blk)) ;;
  match err with
  | Some err => ipfsShutdown ;;; ret (Some err)
  | None =>
  PublishIPNSRecordForDAGNode (blk_cid blk) "" ;;;
  put <- PutIPFSDAGBlockToW3S (cfg_W3SSecretKey cfg) (Some blk) ;;
  match snd put with
  | Some err => ipfsShutdown ;;; ret (Some err)
  | None =>
  err <- PublishIPNSRecordForDAGNodeToW3S (cfg_W3SSecretKey cfg) (blk_cid blk)
           (cfg_IPFSPrivKey cfg) (cfg_IPFSPubKey cfg) ;;
  ipfsShutdown ;;;
  ret err
  end end end end end end end end.

End PackageFeed.

(** ** A sample environment

    Concrete stand-ins for the library functions, used to run the program
    on explicit inputs: the binary form of a Cid is taken to be its digest,
    a digest is the data cut or padded to the requested length, JSON text
    is accepted when it opens with a brace, and node bytes decode unless
    they are empty. *)
Module Sample.

Definition digest (ty len : Z) (data : bytes) : bytes :=
  take (Z.to_nat len) (data ++ repeat x00 (Z.to_nat len)).

Definition parse_cid (b : bytes) : Cid + error :=
  match b with
  | [] => inr (ErrLib "cid: too short")
  | _ => inl (mkCid (mkPrefix 1 cid_DagJSON mh_SHA3_384 48) b)
  end.

Definition parse_user (b : bytes) : User + error :=
  match b with
  | x7b :: _ => inl (mkUser "did:example:alice" [] [] [] [])
  | _ => inr (ErrLib "invalid character looking for beginning of value")
  end.

Definition decode (c : Cid) (b : bytes) : option error :=
  match b with
  | [] => Some (ErrLib "unexpected EOF")
  | _ => None
  end.

Definition files (file : string) : option bytes :=
  if String.eqb file "user.json" then Some (list_byte_of_string "{}")
  else if String.eqb file "notes.txt" then Some (list_byte_of_string "hello")
  else None.

Definition env (f : Op -> option error) : Env := {|
  fault := f;
  CidFromBytes := parse_cid;
  mh_digest := digest;
  dagjson_bytes := fun p => list_byte_of_string (profile_Did p);
  dagjson_event := fun e => list_byte_of_string (evt_ID e);
  cid_Bytes := cid_hash;
  cid_String := fun c => string_of_list_byte (cid_hash c);
  pubkey_name := fun _ => "k51qzi5uqu5dexample";
  json_User := parse_user;
  fs := files;
  decode_error := decode;
  short_read := 0;
  time_Now := 1700000000000000000
|}.

(** No library call fails. *)
Definition no_fault : Op -> option error := fun _ => None.

(** Exactly the call [op] fails, with [e]. *)
Definition only (op : Op) (e : error) : Op -> option error :=
  fun o => if decide (o = op) then Some e else None.

Definition config : Config :=
  mkConfig "did:example:alice" "infura" "w3s-token" [x01] [x02] true.

(** A world whose local store holds one block, of the given bytes. *)
Definition holding (k : Cid) (data : bytes) : World :=
  mkWorld {[k := data]} {[k]} ∅ ∅ [] [].

Definition key : bytes := [x6b; x65; x79].
Definition key_cid : Cid := mkCid (mkPrefix 1 cid_DagJSON mh_SHA3_384 48) key.

(** A world in which Web3.Storage holds one name record. *)
Definition naming (name : string) (r : IpnsRecord) : World :=
  mkWorld ∅ ∅ ∅ {[name := r]} [] [].

Definition alice_name : string := "k51qzi5uqu5dexample".

Definition old_record : IpnsRecord :=
  mkIpnsRecord "/ipfs/bafyold" 5 1600000000000000000 [x01] (Some [x02]).

Definition alice_cid : Cid :=
  mkCid cidprefix (digest mh_SHA3_384 48 (list_byte_of_string "did:example:alice")).

End Sample.

(** ** The remaining functions of packages ipfs and nostr *)

(** [w3s.PinOption], as made by [w3s.WithPinOrigin]. *)
Inductive PinOption := WithPinOrigin (origin : string).

(** The world together with what the pinning service of Web3.Storage
    holds: the pins it has accepted, each with the option it was requested
    with, oldest first. *)
Record PinWorld := mkPinWorld {
  pw_world : World;
  pw_pins : list (Cid * PinOption)
}.

(** The further library calls these functions make: what each returns in
    this run. *)
Class Extern := {
  (** [path.FromString(v).Segments()] *)
  path_Segments : string -> list string;
  (** [cid.Parse] of the text of a Cid *)
  cid_Parse : string -> Cid + error;
  (** [Swarm().LocalAddrs], each address by its [String()] *)
  swarm_LocalAddrs : list string + error;
  (** the error the pinning service refuses a pin request with, if it
      refuses this request *)
  w3s_Pin_refusal : Cid -> PinOption -> option error;
  (** [Event.Sign]: the event with [ID], [PubKey] and [Sig] filled in *)
  nostr_Sign : string -> NostrEvent -> NostrEvent + error;
  (** [Event.CheckSignature] *)
  nostr_CheckSignature : NostrEvent -> bool * option error
}.

Section MoreOfPackageIpfs.
Context {E : Env} {X : Extern}.

(** [func GetIPNSRecordFromW3S(ctx, authToken, name) (cid.Cid, error)].
    An error of the lookup that comes with a record is only logged;
    [p.Segments()[1]] is an index into a slice. *)
Definition GetIPNSRecordFromW3S (authToken : string) (name : string)
  : Go (Cid * option error) :=
  match w3s_NewClient authToken with
  | Some err => ret (cid_Undef, Some err)
  | None =>
      rg <- w3s_GetName name ;;
      match fst rg with
      | None => ret (cid_Undef, snd rg)
      | Some r =>
          let v := rec_value r in
          match path_Segments v !! 1%nat with
          | None => panic "index out of range"
          | Some seg =>
              match cid_Parse seg with
              | inl c => ret (c, None)
              | inr err => ret (cid_Undef, Some err)
              end
          end
      end
  end.

(** Modelled from the spec: [Client.Pin] of package w3s, a request to
    the "external pinning service" with one option.  A request the service
    refuses returns its error and leaves the service as it is; a request
    it accepts is kept among the pins the service holds. *)
Definition w3s_Pin (c : Cid) (opt : PinOption) (pw : PinWorld)
  : option error * PinWorld :=
  match w3s_Pin_refusal c opt with
  | Some err => (Some err, pw)
  | None => (None, mkPinWorld (pw_world pw) (pw_pins pw ++ [(c, opt)]))
  end.

(** [func PinIPFSBlockToW3S(ctx, ipfs, authToken, block) error], acting
    on the world and the pinning service.  The arguments of [c.Pin] are
    evaluated left to right, [block.Cid()] before [us[0]]. *)
Definition PinIPFSBlockToW3S (authToken : string) (block : option Block)
    (pw : PinWorld) : outcome (option error) * PinWorld :=
  match w3s_NewClient authToken with
  | Some err => (Returned (Some err), pw)
  | None =>
      match swarm_LocalAddrs with
      | inr err => (Returned (Some err), pw)
      | inl l =>
          let us := map WithPinOrigin l in
          match block with
          | None => (Panicked "nil pointer dereference", pw)
          | Some b =>
              match us !! 0%nat with
              | None => (Panicked "index out of range", pw)
              | Some opt =>
                  match w3s_Pin (blk_cid b) opt pw with
                  | (err, pw') => (Returned err, pw')
                  end
              end
          end
      end
  end.

End MoreOfPackageIpfs.

Section PackageNostr.
Context {E : Env} {X : Extern}.



End PackageNostr.

(** ** Sample collaborators

    A path is split at its slashes, the text of a Cid is parsed as the
    bytes of its digest, signing fills in fixed values, and a signature
    verifies when it is not empty. *)
Module SampleExtern.

Fixpoint split_slash (acc : string) (s : string) : list string :=
  match s with
  | EmptyString => [acc]
  | String a rest =>
      if String.eqb (String a "") "/" then acc :: split_slash "" rest
      else split_slash (String.append acc (String a "")) rest
  end.

Definition segments (v : string) : list string :=
  match split_slash "" v with
  | "" :: rest => rest
  | l => l
  end.

Definition sign (privkey : string) (e : NostrEvent) : NostrEvent + error :=
  if String.eqb privkey "" then inr (ErrLib "invalid private key")
  else inl (mkNostrEvent "4e2f" "02ab" (evt_CreatedAt e) (evt_Kind e)
                         (evt_Tags e) (evt_Content e) privkey).

Definition check (e : NostrEvent) : bool * option error :=
  (negb (String.eqb (evt_Sig e) "forged"), None).

Definition extern (addrs : list string) : Extern := {|
  path_Segments := segments;
  cid_Parse := fun s => Sample.parse_cid (list_byte_of_string s);
  swarm_LocalAddrs := inl addrs;
  w3s_Pin_refusal := fun _ opt =>
    match opt with
    | WithPinOrigin origin =>
        if String.eqb origin "/ip4/127.0.0.1/tcp/4001" then None
        else Some (ErrLib "origin unreachable")
    end;
  nostr_Sign := sign;
  nostr_CheckSignature := check
|}.

End SampleExtern.

(** * The vocabulary of the properties *)

(** The events a computation adds to the history of the world it starts
    in. *)
Definition trace_of {A} (m : Go A) (w : World) : list Event :=
  drop (length (events w)) (events (snd (m w))).

Section Vocabulary.
Context {E : Env}.

(** The bytes the stream of [Block_Get] delivers for a stored block. *)
Definition delivered (data : bytes) : bytes :=
  match fault OpReadAll with
  | Some _ => take short_read data
  | None => data
  end.

(** The write path of the link system: [OpenWrite], one [Write] of [d]
    to the writer it hands out, then the committer it hands out. *)
Definition write_commit (lnk : Link) (d : bytes)
  : Go (option (((nat * option error) * bytes) * option error)) :=
  ow <- OpenWrite lnk ;;
  match ow with
  | (Some ptr, None) =>
      wr <- IPFSLinkWriter_Write ptr d ;;
      err <- BlockWriteCommit ptr lnk ;;
      ret (Some (wr, err))
  | _ => ret None
  end.

(** The sequence number [PublishIPNSRecordForDAGNodeToW3S] settles on in
    world [w] for target [c]: one more than that of the record the service
    returns for the lookup key, which is the text of the path [/ipfs/c];
    [1] when the lookup returns no record or any error. *)
Definition next_sequence (w : World) (c : Cid) : Z :=
  match fault OpGetName with
  | Some _ => 1
  | None =>
      match w3s_names w !! Path_String (IpfsPath c) with
      | Some r => uint64_add (rec_sequence r) 1
      | None => 1
      end
  end.

(** The record a successful publish stores. *)
Definition new_record (w : World) (c : Cid) (privkey pubkey : bytes) : IpnsRecord :=
  mkIpnsRecord (Path_String (IpfsPath c)) (next_sequence w c)
               (time_Now + validity_window) privkey (Some pubkey).

(** The Cid [CreateProfile] derives for the profile of a configuration. *)
Definition profile_cid (cfg : Config) : Cid :=
  mkCid cidprefix
        (mh_digest (MhType cidprefix) (MhLength cidprefix)
                   (dagjson_bytes (mkProfile (cfg_Did cfg)))).

(** The remote steps of a run for the Cid [c]: none, the archive alone,
    or the archive and then a name record whose value is the path of
    [c]. *)
Inductive remote_steps (c : Cid) : list Event -> Prop :=
| remote_none : remote_steps c []
| remote_archived : remote_steps c [EvRemoteCar c]
| remote_named (name : string) (r : IpnsRecord) :
    rec_value r = Path_String (IpfsPath c) ->
    remote_steps c [EvRemoteCar c; EvRemoteName name r].

(** The events of the pipeline proper, between the start of the node and
    its shutdown: nothing; or the local pin of [c], then possibly the
    local name record, then the remote steps. *)
Inductive pipeline_steps (c : Cid) : list Event -> Prop :=
| steps_none : pipeline_steps c []
| steps_pinned (rest : list Event) :
    remote_steps c rest -> pipeline_steps c (EvLocalPin c :: rest)
| steps_pinned_named (rest : list Event) :
    remote_steps c rest ->
    pipeline_steps c (EvLocalPin c :: EvLocalName (IpldPath c) :: rest).

(** Every run of [CreateProfile]: nothing happened; or the node was built
    but [StartIPFSNode] failed after that and the node was left running;
    or start, pipeline steps, shutdown. *)
Inductive profile_run (c : Cid) : list Event -> Prop :=
| run_unstarted : profile_run c []
| run_start_failed : profile_run c [EvNodeStarted]
| run_pipeline (steps : list Event) :
    pipeline_steps c steps ->
    profile_run c (EvNodeStarted :: steps ++ [EvNodeClosed]).

(** The event of a call of the shutdown function. *)
Definition is_shutdown (e : Event) : bool :=
  match e with EvNodeClosed => true | _ => false end.

(** How many times the shutdown function ran. *)
Definition shutdown_calls (tr : list Event) : nat :=
  length (List.filter is_shutdown tr).

(** The Cids an event carries. *)
Definition event_cids (e : Event) : list Cid :=
  match e with
  | EvLocalPin c => [c]
  | EvLocalName p => [Path_Cid p]
  | EvRemoteCar c => [c]
  | _ => []
  end.

(** A Cid the system has derived: one carried by an event of a
    [CreateProfile] run, or the link [PutNostrEventAsIPLDLink] returns. *)
Definition derived_cid (cfg : Config) (w : World)
    (ipfs : IPFSCore) (evt : NostrEvent) (w2 : World) (c : Cid) : Prop :=
  (exists e, In e (trace_of (CreateProfile cfg) w) /\ In c (event_cids e)) \/
  (exists err, fst (PutNostrEventAsIPLDLink ipfs evt w2) = Returned (Some c, err)).

End Vocabulary.

(** The claim C6 as the specification words it: a failed lookup aborts
    the publish with the error of the lookup. *)
Definition aborts_on_lookup_failure (E : Env)
    (tok : string) (c : Cid) (privkey pubkey : bytes) (w : World) : Prop :=
  forall e, @fault E OpGetName = Some e ->
    fst (@PublishIPNSRecordForDAGNodeToW3S E tok c privkey pubkey w)
      = Returned (Some e).

(** Two errors a library call may fail with. *)
Definition connection_refused : error := ErrLib "dial tcp: connection refused".

Definition routing_not_found : error := ErrLib "routing: not found".

(** The record the first publish of the sample profile stores. *)
Definition alice_record : IpnsRecord :=
  mkIpnsRecord
    (@Path_String (Sample.env Sample.no_fault) (IpfsPath Sample.alice_cid))
    1 (1700000000000000000 + validity_window) [x01] (Some [x02]).

(** Name-record publications, local or remote, and remote archivals. *)
Definition is_name_publication (e : Event) : Prop :=
  match e with
  | EvLocalName _ | EvRemoteName _ _ => True
  | _ => False
  end.

Definition is_remote_archival (e : Event) : Prop :=
  match e with
  | EvRemoteCar _ => True
  | _ => False
  end.

(** The claim C4 as the specification words it, on the order of remote
    archival and name-record publication: every name record published in
    a run, local or remote, comes after a remote archival of that run. *)
Definition archival_before_names (tr : list Event) : Prop :=
  forall j e, tr !! j = Some e -> is_name_publication e ->
    exists i e', (i < j)%nat /\ tr !! i = Some e' /\ is_remote_archival e'.

(** A Nostr event as [CreateTestEvent] makes them. *)
Definition sample_event : NostrEvent :=
  mkNostrEvent "0" "pubkey" 1700000000 30078 [] "hello" "sig".

(** No link writer of the world holds a byte. *)
Definition buffers_empty (w : World) : Prop :=
  Forall (fun lw => lw_data lw = Buffer.empty) (writers w).



(** * Properties *)

(** ** LoadUser *)

Section LoadUserFacts.
Context {E : Env}.

(** C9. When the file exists and can be read but its bytes are not valid
    JSON for [User], [LoadUser] returns the zero [User] with a nil error:
    the error it returns is the (nil) one left by [os.ReadFile], not the
    one of [json.Unmarshal]. *)
Theorem LoadUser_drops_unmarshal_error (file : string) (u : bytes) (e : error) :
  os_Stat file = None ->
  os_ReadFile file = (u, None) ->
  json_User u = inr e ->
  LoadUser file = (User_zero, None).
Proof.
  intros Hstat Hread Hjson.
  unfold LoadUser, json_Unmarshal.
  rewrite Hstat, Hread, Hjson.
  reflexivity.
Qed.

(** On valid JSON the decoded user comes back. *)
Lemma LoadUser_valid (file : string) (u : bytes) (v : User) :
  os_Stat file = None ->
  os_ReadFile file = (u, None) ->
  json_User u = inl v ->
  LoadUser file = (v, None).
Proof.
  intros Hstat Hread Hjson.
  unfold LoadUser, json_Unmarshal.
  rewrite Hstat, Hread, Hjson.
  reflexivity.
Qed.

(** A file that cannot be read does give its error. *)
Lemma LoadUser_read_error (file : string) (u : bytes) (e : error) :
  os_Stat file = None ->
  os_ReadFile file = (u, Some e) ->
  LoadUser file = (User_zero, Some e).
Proof.
  intros Hstat Hread. unfold LoadUser. rewrite Hstat, Hread. reflexivity.
Qed.

End LoadUserFacts.

(** On the sample disk, [notes.txt] holds [hello], which is not JSON:
    [LoadUser] returns the zero user and no error. *)
Lemma LoadUser_drops_unmarshal_error_witness :
  @json_User (Sample.env Sample.no_fault) (list_byte_of_string "hello")
    = inr (ErrLib "invalid character looking for beginning of value")
  /\ @LoadUser (Sample.env Sample.no_fault) "notes.txt" = (User_zero, None).
Proof.
  split; [reflexivity |].
  apply (@LoadUser_drops_unmarshal_error (Sample.env Sample.no_fault)
           "notes.txt" (list_byte_of_string "hello")
           (ErrLib "invalid character looking for beginning of value"));
    reflexivity.
Defined.

(** ** The local store adapter *)

Section StoreFacts.
Context {E : Env}.

(** With a node that answers, [Has] reports a block the store holds as
    absent and a block it does not hold as present. *)
Lemma Has_inverted (key : bytes) (k : Cid) (w : World) :
  CidFromBytes key = inl k ->
  fault OpBlockStat = None ->
  Has key w =
    match blockstore w !! k with
    | Some _ => (Returned (false, None), w)
    | None => (Returned (true, Some ErrNotFound), w)
    end.
Proof.
  intros Hk Hf. unfold Has. rewrite Hk.
  unfold Block_Stat, bind, gets, ret. cbv beta. rewrite Hf.
  destruct (blockstore w !! k); reflexivity.
Qed.

Lemma Block_Get_stored (k : Cid) (w : World) (data : bytes) :
  fault OpBlockGet = None ->
  blockstore w !! k = Some data ->
  Block_Get k w = (Returned (inl (mkReader (delivered data) (fault OpReadAll))), w).
Proof.
  intros Hf Hs. unfold Block_Get, delivered, gets. cbv beta. rewrite Hf, Hs.
  destruct (fault OpReadAll); reflexivity.
Qed.

(** C10. [Get] and [OpenRead] on a stored block whose delivered bytes do
    not decode as a node panic on the nil node instead of returning the
    decode error; and whether or not the stream ended in an error, that
    error is not part of what they return: when the delivered bytes decode,
    both return them with a nil error. *)
Theorem Get_OpenRead_error_branch
    (key : bytes) (lnk : Link) (k : Cid) (w : World) (data : bytes) :
  CidFromBytes key = inl k ->
  CidFromBytes (Link_Binary lnk) = inl k ->
  fault OpBlockGet = None ->
  fault OpNewBlockWithCid = None ->
  blockstore w !! k = Some data ->
  (forall e, decode_error k (delivered data) = Some e ->
     fst (Get key w) = Panicked "nil pointer dereference" /\
     fst (OpenRead lnk w) = Panicked "nil pointer dereference") /\
  (decode_error k (delivered data) = None ->
     fst (Get key w) = Returned (delivered data, None) /\
     fst (OpenRead lnk w) =
       Returned (Some (bytes_NewReader (delivered data)), None)).
Proof.
  intros Hkey Hlnk Hget Hblk Hdata.
  unfold Get, OpenRead. rewrite Hkey, Hlnk.
  unfold bind.
  rewrite (Block_Get_stored k w data Hget Hdata).
  unfold NewBlockWithCid. rewrite Hblk.
  unfold DecodeNode, RawData, io_ReadAll, ret, panic. cbn.
  split.
  - intros e He. rewrite He. split; reflexivity.
  - intros He. rewrite He. split; reflexivity.
Qed.

End StoreFacts.

(** On a store holding the block [{}]: when the stream breaks before any
    byte arrives the empty read does not decode and both functions panic;
    on an undisturbed read both return the block. *)
Lemma Get_OpenRead_error_branch_witness :
  (fst (@Get (Sample.env (Sample.only OpReadAll (ErrLib "connection reset")))
          Sample.key (Sample.holding Sample.key_cid [x7b; x7d]))
     = Panicked "nil pointer dereference" /\
   fst (@OpenRead (Sample.env (Sample.only OpReadAll (ErrLib "connection reset")))
          Sample.key_cid (Sample.holding Sample.key_cid [x7b; x7d]))
     = Panicked "nil pointer dereference") /\
  (fst (@Get (Sample.env Sample.no_fault)
          Sample.key (Sample.holding Sample.key_cid [x7b; x7d]))
     = Returned ([x7b; x7d], None) /\
   fst (@OpenRead (Sample.env Sample.no_fault)
          Sample.key_cid (Sample.holding Sample.key_cid [x7b; x7d]))
     = Returned (Some (bytes_NewReader [x7b; x7d]), None)).
Proof.
  split.
  - apply (proj1 (@Get_OpenRead_error_branch
             (Sample.env (Sample.only OpReadAll (ErrLib "connection reset")))
             Sample.key Sample.key_cid Sample.key_cid
             (Sample.holding Sample.key_cid [x7b; x7d]) [x7b; x7d]
             eq_refl eq_refl eq_refl eq_refl
             (lookup_singleton_eq Sample.key_cid [x7b; x7d]))
           (ErrLib "unexpected EOF")).
    reflexivity.
  - apply (proj2 (@Get_OpenRead_error_branch
             (Sample.env Sample.no_fault)
             Sample.key Sample.key_cid Sample.key_cid
             (Sample.holding Sample.key_cid [x7b; x7d]) [x7b; x7d]
             eq_refl eq_refl eq_refl eq_refl
             (lookup_singleton_eq Sample.key_cid [x7b; x7d]))).
    reflexivity.
Defined.

(** C3. [Has] on the key of a block the local store holds answers
    [false], and on the key of a block it does not hold answers [true]
    (with the not-found error): the flag is [err != nil] of the [Stat]
    call, the negation of what the adapter is to report. *)
Theorem Has_reports_the_opposite :
  fst (@Has (Sample.env Sample.no_fault) Sample.key
         (Sample.holding Sample.key_cid [x7b; x7d]))
    = Returned (false, None) /\
  fst (@Has (Sample.env Sample.no_fault) Sample.key World_empty)
    = Returned (true, Some ErrNotFound).
Proof.
  split.
  - rewrite (@Has_inverted (Sample.env Sample.no_fault) Sample.key
               Sample.key_cid _ eq_refl eq_refl).
    unfold Sample.holding. cbn [blockstore].
    rewrite lookup_singleton_eq. reflexivity.
  - rewrite (@Has_inverted (Sample.env Sample.no_fault) Sample.key
               Sample.key_cid _ eq_refl eq_refl).
    unfold World_empty. cbn [blockstore].
    rewrite lookup_empty. reflexivity.
Qed.

(** ** The link writer *)

Section LinkWriterFacts.
Context {E : Env}.

(** [Buffer.Write] is what keeps bytes: after it the buffer holds them. *)
Lemma Buffer_Write_keeps (d : bytes) :
  Buffer.Bytes (snd (Buffer.Write Buffer.empty d)) = d.
Proof. reflexivity. Qed.

(** [Read] on an empty buffer delivers nothing and leaves it empty. *)
Lemma Buffer_Read_empty (d : bytes) :
  d <> [] -> Buffer.Read Buffer.empty d = ((0%nat, Some io_EOF), d, []).
Proof.
  intros Hd. destruct d as [|b d]; [contradiction | reflexivity].
Qed.

(** A [Write] to a writer whose buffer is empty stores none of [d]: it
    returns [0] and [io.EOF] and the buffer is still empty. *)
Lemma Write_buffers_nothing (ptr : nat) (lw : IPFSLinkWriter) (d : bytes) (w : World) :
  writers w !! ptr = Some lw ->
  lw_data lw = Buffer.empty ->
  d <> [] ->
  IPFSLinkWriter_Write ptr d w =
    (Returned ((0%nat, Some io_EOF), d),
     set_writer ptr (mkLinkWriter (lw_cid lw) Buffer.empty) w).
Proof.
  intros Hptr Hdata Hd. unfold IPFSLinkWriter_Write.
  rewrite Hptr, Hdata, (Buffer_Read_empty d Hd). reflexivity.
Qed.

(** What [OpenRead] returns is decided by the block store alone. *)
Lemma OpenRead_blockstore (lnk : Link) (w w' : World) :
  blockstore w' = blockstore w ->
  fst (OpenRead lnk w') = fst (OpenRead lnk w).
Proof.
  intros Hb. unfold OpenRead.
  destruct (CidFromBytes (Link_Binary lnk)) as [k|e]; [| reflexivity].
  unfold bind, Block_Get, gets. cbv beta. rewrite Hb.
  destruct (fault OpBlockGet); [reflexivity |].
  destruct (blockstore w !! k) as [data|]; [| reflexivity].
  destruct (fault OpReadAll);
    unfold io_ReadAll, NewBlockWithCid; cbn [fst rd_data];
    (destruct (fault OpNewBlockWithCid); cbn [fst DecodeNode panic];
     [reflexivity |];
     cbn [blk_cid blk_data];
     match goal with
     | |- context [decode_error ?a ?b] => destruct (decode_error a b)
     end; reflexivity).
Qed.

(** Writing [d] through the open-write path and committing leaves every
    store as it was: [Write] takes none of [d], the buffer of the writer
    is empty at commit, the committer succeeds without doing anything, and
    a read of the link afterwards is the read before. *)
Lemma write_commit_stores_nothing (lnk : Link) (k : Cid) (d : bytes) (w : World) :
  CidFromBytes (Link_Binary lnk) = inl k ->
  d <> [] ->
  exists w',
    write_commit lnk d w = (Returned (Some (((0%nat, Some io_EOF), d), None)), w') /\
    writers w' = writers w ++ [mkLinkWriter k Buffer.empty] /\
    blockstore w' = blockstore w /\
    pins w' = pins w /\
    w3s_cars w' = w3s_cars w /\
    events w' = events w /\
    fst (OpenRead lnk w') = fst (OpenRead lnk w).
Proof.
  intros Hk Hd. unfold write_commit, OpenWrite. rewrite Hk.
  unfold bind at 1.
  set (w1 := new_writer (mkLinkWriter k Buffer.empty) w).
  assert (Hptr : writers w1 !! length (writers w)
                 = Some (mkLinkWriter k Buffer.empty)).
  { unfold w1, new_writer. cbn [writers]. apply list_lookup_middle. reflexivity. }
  unfold bind at 1.
  rewrite (Write_buffers_nothing _ _ d w1 Hptr eq_refl Hd).
  unfold BlockWriteCommit, bind, ret. cbn [lw_cid].
  eexists. split; [reflexivity |].
  assert (Hw : <[length (writers w) := mkLinkWriter k Buffer.empty]>
                 (writers w ++ [mkLinkWriter k Buffer.empty])
               = writers w ++ [mkLinkWriter k Buffer.empty]).
  { apply list_insert_id. apply list_lookup_middle. reflexivity. }
  unfold set_writer, w1, new_writer. cbn [writers blockstore pins w3s_cars events].
  rewrite Hw.
  repeat split; try reflexivity.
  apply OpenRead_blockstore. reflexivity.
Qed.

End LinkWriterFacts.

(** C1. A byte sequence written through the open-write path is not
    buffered and does not reach any backend: [Write] reads from the
    writer's empty buffer instead of appending to it, returns [0] and
    [io.EOF], and the committer returns nil with the local store and the
    remote archive untouched; [OpenRead] on the link then fails with
    not-found instead of returning the bytes. *)
Theorem open_write_commit_loses_the_bytes :
  let E := Sample.env Sample.no_fault in
  let d := list_byte_of_string "hello" in
  let run := @write_commit E Sample.key_cid d World_empty in
  fst run = Returned (Some (((0%nat, Some io_EOF), d), None)) /\
  writers (snd run) = [mkLinkWriter Sample.key_cid []] /\
  blockstore (snd run) = ∅ /\
  w3s_cars (snd run) = ∅ /\
  fst (@OpenRead E Sample.key_cid (snd run)) = Returned (None, Some ErrNotFound).
Proof.
  cbv zeta.
  destruct (@write_commit_stores_nothing (Sample.env Sample.no_fault)
              Sample.key_cid Sample.key_cid (list_byte_of_string "hello")
              World_empty eq_refl)
    as (w' & Hrun & Hwr & Hbs & _ & Hcars & _ & Hread).
  { discriminate. }
  rewrite Hrun. cbn [fst snd].
  rewrite Hwr, Hbs, Hcars, Hread.
  repeat split; reflexivity.
Qed.

(** ** The name publisher *)

Section PublisherFacts.
Context {E : Env}.

(** A publish either returns an error and leaves the world alone, or
    returns nil having stored [new_record] under the name of the key. *)
Lemma Publish_cases (tok : string) (c : Cid) (privkey pubkey : bytes) (w : World) :
  (exists e, PublishIPNSRecordForDAGNodeToW3S tok c privkey pubkey w
             = (Returned (Some e), w)) \/
  PublishIPNSRecordForDAGNodeToW3S tok c privkey pubkey w
    = (Returned None,
       set_name (pubkey_name pubkey) (new_record w c privkey pubkey) w).
Proof.
  unfold PublishIPNSRecordForDAGNodeToW3S, GetIPNSPublicKeyName, w3s_NewClient,
    new_record, next_sequence.
  destruct (fault OpUnmarshalPublicKey) as [e|]; [left; eauto |].
  destruct (fault OpIDFromPublicKey) as [e|]; [left; eauto |].
  destruct (fault OpW3SNewClient) as [e|]; [left; eauto |].
  destruct (fault OpUnmarshalPrivateKey) as [e|]; [left; eauto |].
  unfold bind, w3s_GetName, gets. cbv beta.
  destruct (fault OpIpnsCreate) as [e|]; [left; eauto |].
  destruct (fault OpEmbedPublicKey) as [e|]; [left; eauto |].
  unfold w3s_PutName.
  destruct (fault OpPutName) as [e|]; [left; eauto |].
  right. unfold bind, modify, ret.
  destruct (fault OpGetName) as [e|]; [reflexivity |].
  destruct (w3s_names w !! Path_String (IpfsPath c)); reflexivity.
Qed.

(** When no library call other than the lookup fails, the publish goes
    through. *)
Lemma Publish_succeeds (tok : string) (c : Cid) (privkey pubkey : bytes) (w : World) :
  (forall op, op <> OpGetName -> fault op = None) ->
  PublishIPNSRecordForDAGNodeToW3S tok c privkey pubkey w
    = (Returned None,
       set_name (pubkey_name pubkey) (new_record w c privkey pubkey) w).
Proof.
  intros Hok.
  unfold PublishIPNSRecordForDAGNodeToW3S, GetIPNSPublicKeyName, w3s_NewClient,
    new_record, next_sequence.
  rewrite !Hok by discriminate.
  unfold bind, w3s_GetName, gets. cbv beta.
  unfold w3s_PutName. rewrite !Hok by discriminate.
  unfold bind, modify, ret.
  destruct (fault OpGetName) as [e|]; [reflexivity |].
  destruct (w3s_names w !! Path_String (IpfsPath c)); reflexivity.
Qed.

(** The events of a publish: none, or the one name record. *)
Lemma Publish_trace (tok : string) (c : Cid) (privkey pubkey : bytes) (w : World) :
  trace_of (PublishIPNSRecordForDAGNodeToW3S tok c privkey pubkey) w = [] \/
  trace_of (PublishIPNSRecordForDAGNodeToW3S tok c privkey pubkey) w
    = [EvRemoteName (pubkey_name pubkey) (new_record w c privkey pubkey)].
Proof.
  unfold trace_of.
  destruct (Publish_cases tok c privkey pubkey w) as [[e ->] | ->]; cbn [snd].
  - left. apply drop_all.
  - right. unfold set_name. cbn [events]. apply drop_app_length.
Qed.

(** C6, as the code has it. When the name lookup before a publish fails,
    with a transport error or any other, the publish does not abort on
    it: every record the run publishes carries sequence number 1, and when
    the remaining library calls succeed the operation returns nil with
    that record stored under the name. *)
Theorem lookup_failure_restarts_sequence
    (tok : string) (c : Cid) (privkey pubkey : bytes) (w : World) (e : error) :
  fault OpGetName = Some e ->
  (forall name r,
     In (EvRemoteName name r)
        (trace_of (PublishIPNSRecordForDAGNodeToW3S tok c privkey pubkey) w) ->
     rec_sequence r = 1) /\
  ((forall op, op <> OpGetName -> fault op = None) ->
   PublishIPNSRecordForDAGNodeToW3S tok c privkey pubkey w
     = (Returned None,
        set_name (pubkey_name pubkey)
          (mkIpnsRecord (Path_String (IpfsPath c)) 1
             (time_Now + validity_window) privkey (Some pubkey)) w)).
Proof.
  intros Hget.
  assert (Hseq : next_sequence w c = 1).
  { unfold next_sequence. rewrite Hget. reflexivity. }
  split.
  - intros name r Hin.
    destruct (Publish_trace tok c privkey pubkey w) as [Htr | Htr];
      rewrite Htr in Hin; simpl in Hin.
    + contradiction.
    + destruct Hin as [Heq | []]. injection Heq as _ <-.
      unfold new_record. cbn [rec_sequence]. exact Hseq.
  - intros Hok. rewrite (Publish_succeeds tok c privkey pubkey w Hok).
    unfold new_record. rewrite Hseq. reflexivity.
Qed.

End PublisherFacts.

(** In the sample environment [only op e] no other call fails. *)
Lemma only_other (op : Op) (e : error) (o : Op) :
  o <> op -> @fault (Sample.env (Sample.only op e)) o = None.
Proof.
  intros Hne. cbn [fault Sample.env]. unfold Sample.only.
  destruct (decide (o = op)); [contradiction | reflexivity].
Qed.

(** With the lookup refused and a record of sequence 5 under the name, the
    sample publish returns nil and stores sequence 1. *)
Lemma lookup_failure_restarts_sequence_witness :
  let E := Sample.env (Sample.only OpGetName connection_refused) in
  @PublishIPNSRecordForDAGNodeToW3S E "w3s-token" Sample.alice_cid [x01] [x02]
      (Sample.naming Sample.alice_name Sample.old_record)
    = (Returned None,
       set_name Sample.alice_name
         (mkIpnsRecord (@Path_String E (IpfsPath Sample.alice_cid)) 1
            (@time_Now E + validity_window) [x01] (Some [x02]))
         (Sample.naming Sample.alice_name Sample.old_record)).
Proof.
  cbv zeta.
  apply (proj2 (@lookup_failure_restarts_sequence
                  (Sample.env (Sample.only OpGetName connection_refused))
                  "w3s-token" Sample.alice_cid [x01] [x02]
                  (Sample.naming Sample.alice_name Sample.old_record)
                  connection_refused eq_refl)).
  intros op Hop. apply only_other. exact Hop.
Defined.

(** C6 fails on the code: with the service unreachable for the lookup and
    a record of sequence 5 already published under the name, the publish
    returns nil and overwrites it with a record of sequence 1. *)
Lemma lookup_failure_aborts_counterexample :
  ~ aborts_on_lookup_failure
      (Sample.env (Sample.only OpGetName connection_refused))
      "w3s-token" Sample.alice_cid [x01] [x02]
      (Sample.naming Sample.alice_name Sample.old_record).
Proof.
  intros Habort.
  specialize (Habort connection_refused eq_refl).
  rewrite (@Publish_succeeds
             (Sample.env (Sample.only OpGetName connection_refused))) in Habort.
  - discriminate Habort.
  - intros op Hop. apply only_other. exact Hop.
Qed.

(** C2. With a record of sequence 5 held by the service under the name of
    the key, a publish under that name stores a record of sequence 1, not
    6, and a second publish stores sequence 1 again: the lookup that is to
    find the previous record is made with the text of the target path
    [/ipfs/cid] as its key, not with the name, so the record published
    under the name is never the one it finds. *)
Theorem publish_sequence_restarts_at_one :
  let E := Sample.env Sample.no_fault in
  let w0 := Sample.naming Sample.alice_name Sample.old_record in
  let run1 := @PublishIPNSRecordForDAGNodeToW3S E "w3s-token"
                Sample.alice_cid [x01] [x02] w0 in
  let run2 := @PublishIPNSRecordForDAGNodeToW3S E "w3s-token"
                Sample.key_cid [x01] [x02] (snd run1) in
  @GetIPNSPublicKeyName E [x02] = (Sample.alice_name, None) /\
  rec_sequence <$> w3s_names w0 !! Sample.alice_name = Some 5 /\
  fst run1 = Returned None /\
  rec_sequence <$> w3s_names (snd run1) !! Sample.alice_name = Some 1 /\
  fst run2 = Returned None /\
  rec_sequence <$> w3s_names (snd run2) !! Sample.alice_name = Some 1.
Proof.
  cbv zeta.
  rewrite !(@Publish_succeeds (Sample.env Sample.no_fault))
    by (intros; reflexivity).
  cbn [fst snd]. unfold set_name, Sample.naming. cbn [w3s_names].
  rewrite !lookup_insert_eq, lookup_singleton_eq.
  repeat split; vm_compute; reflexivity.
Qed.

(** ** The publish operation *)

Section PipelineFacts.
Context {E : Env}.

Lemma bind_Returned {A B} (m : Go A) (k : A -> Go B) (w w' : World) (a : A) :
  m w = (Returned a, w') -> bind m k w = k a w'.
Proof. intros H. unfold bind. rewrite H. reflexivity. Qed.

Lemma bind_Panicked {A B} (m : Go A) (k : A -> Go B) (w w' : World) (why : string) :
  m w = (Panicked why, w') -> bind m k w = (Panicked why, w').
Proof. intros H. unfold bind. rewrite H. reflexivity. Qed.

(** The four ways [StartIPFSNode] ends: a panic on the public key, an
    error before the node exists, an error with the node already built
    (and never closed), or the handle of the started node. *)
Lemma StartIPFSNode_cases (privkey pubkey : bytes) (w : World) :
  (exists why, StartIPFSNode privkey pubkey w = (Panicked why, w)) \/
  (exists e, StartIPFSNode privkey pubkey w = (Returned (inr e), w)) \/
  (exists e, StartIPFSNode privkey pubkey w
             = (Returned (inr e), emit EvNodeStarted w)) \/
  StartIPFSNode privkey pubkey w
    = (Returned (inl (mkIPFSCore "none")), emit EvNodeStarted w).
Proof.
  unfold StartIPFSNode, GetIPFSNodeIdentity, w3s_NewClient.
  destruct (fault OpUnmarshalPublicKey) as [e|]; [left; eexists; reflexivity |].
  destruct (fault OpIDFromPublicKey) as [e|]; [left; eexists; reflexivity |].
  destruct (fault OpNewNode) as [e|];
    [right; left; eexists; reflexivity |].
  destruct (fault OpNewCoreAPI) as [e|];
    [right; right; left; eexists; reflexivity |].
  destruct (fault OpW3SNewClient) as [e|];
    [right; right; left; eexists; reflexivity |].
  right; right; right. reflexivity.
Qed.

Lemma StartIPFSNode_ok (privkey pubkey : bytes) (w w1 : World) (core : IPFSCore) :
  StartIPFSNode privkey pubkey w = (Returned (inl core), w1) ->
  w1 = emit EvNodeStarted w.
Proof.
  intros H.
  destruct (StartIPFSNode_cases privkey pubkey w)
    as [[why Hc] | [[e Hc] | [[e Hc] | Hc]]];
    rewrite Hc in H; congruence.
Qed.

Lemma PublishIPNSRecordForDAGNode_cases (c : Cid) (keyname : string) (w : World) :
  (exists e, PublishIPNSRecordForDAGNode c keyname w = (Returned (Some e), w)) \/
  PublishIPNSRecordForDAGNode c keyname w
    = (Returned None, emit (EvLocalName (IpldPath c)) w).
Proof.
  unfold PublishIPNSRecordForDAGNode, Name_Publish.
  destruct (fault OpNamePublish) as [e|].
  - left. eexists. reflexivity.
  - right. reflexivity.
Qed.

Lemma PutIPFSDAGBlockToW3S_cases (tok : string) (blk : Block) (w : World) :
  (exists e, PutIPFSDAGBlockToW3S tok (Some blk) w
             = (Returned (cid_Undef, Some e), w)) \/
  (exists data, PutIPFSDAGBlockToW3S tok (Some blk) w
     = (Returned (blk_cid blk, None),
        add_car (mkCar (blk_cid blk) [(blk_cid blk, data)]) w)).
Proof.
  unfold PutIPFSDAGBlockToW3S, PinIPLDBlockToW3S, w3s_NewClient.
  destruct (fault OpW3SNewClient) as [e|]; [left; eexists; reflexivity |].
  unfold w3s_WriteCar, w3s_PutCar, bind, gets, ret, modify. cbv beta.
  destruct (fault OpWriteCar) as [e|]; [left; eexists; reflexivity |].
  destruct (blockstore w !! blk_cid blk) as [data|];
    [| left; eexists; reflexivity].
  destruct (fault OpPutCar) as [e|]; [left; eexists; reflexivity |].
  right. exists data. reflexivity.
Qed.

Ltac events_norm :=
  cbn [snd fst events emit store_block add_car set_name ln_block
       blk_cid blk_data car_root app];
  rewrite <- ?app_assoc;
  cbn [app].

Ltac pipeline_done steps :=
  exists steps; eexists; eexists;
  split; [ repeat constructor; try assumption
         | split; [ unfold Shutdown, bind, ret, modify; reflexivity
                  | events_norm; reflexivity ] ].

(** The last two steps of [CreateProfile], from any world: the remote
    archive and the remote name record, then the shutdown. *)
Lemma CreateProfile_remote_part (cfg : Config) (core : IPFSCore) (blk : Block) (w : World) :
  exists rest err w',
    remote_steps (blk_cid blk) rest /\
    (put <- PutIPFSDAGBlockToW3S (cfg_W3SSecretKey cfg) (Some blk) ;;
     match snd put with
     | Some err0 => Shutdown core ;;; ret (Some err0)
     | None =>
         err0 <- PublishIPNSRecordForDAGNodeToW3S (cfg_W3SSecretKey cfg)
                   (blk_cid blk) (cfg_IPFSPrivKey cfg) (cfg_IPFSPubKey cfg) ;;
         Shutdown core ;;; ret err0
     end) w = (Returned err, w') /\
    events w' = events w ++ rest ++ [EvNodeClosed].
Proof.
  destruct (PutIPFSDAGBlockToW3S_cases (cfg_W3SSecretKey cfg) blk w)
    as [[e Hput] | [data Hput]];
    rewrite (bind_Returned _ _ _ _ _ Hput); cbn [snd].
  - pipeline_done (@nil Event).
  - match goal with
    | |- context [bind (PublishIPNSRecordForDAGNodeToW3S ?t ?c ?sk ?pk) _ ?w1] =>
        destruct (Publish_cases t c sk pk w1) as [[e Hpub] | Hpub];
        rewrite (bind_Returned _ _ _ _ _ Hpub)
    end.
    + pipeline_done [EvRemoteCar (blk_cid blk)].
    + eexists [EvRemoteCar (blk_cid blk); EvRemoteName _ _]; eexists; eexists.
      split; [| split; [unfold Shutdown, bind, ret, modify; reflexivity
                       | events_norm; reflexivity]].
      apply remote_named. reflexivity.
Qed.

(** Once [StartIPFSNode] has handed out the node, [CreateProfile] returns
    (it does not panic), and what it has done is: start, pipeline steps,
    shutdown. *)
Lemma CreateProfile_after_start (cfg : Config) (w w1 : World) (core : IPFSCore) :
  fault OpDidParse = None ->
  cfg_Initialized cfg = true ->
  fault OpResolveENS = None ->
  StartIPFSNode (cfg_IPFSPrivKey cfg) (cfg_IPFSPubKey cfg) w
    = (Returned (inl core), w1) ->
  exists steps err w',
    pipeline_steps (profile_cid cfg) steps /\
    CreateProfile cfg w = (Returned err, w') /\
    events w' = events w ++ EvNodeStarted :: steps ++ [EvNodeClosed].
Proof.
  intros Hdid Hinit Hens Hstart.
  pose proof (StartIPFSNode_ok _ _ _ _ _ Hstart) as ->.
  unfold CreateProfile, PanicIfNotInitialized.
  rewrite Hdid, Hinit, Hens.
  rewrite (bind_Returned (ret tt) _ w w tt eq_refl).
  rewrite (bind_Returned _ _ _ _ _ Hstart).
  unfold dagjson_Encode, Prefix_Sum, NewBlockWithCid, Pinning_Add.
  destruct (fault OpDagJsonEncode) as [e|]; [pipeline_done (@nil Event) |].
  destruct (fault OpPrefixSum) as [e|]; [pipeline_done (@nil Event) |].
  destruct (fault OpNewBlockWithCid) as [e|]; [pipeline_done (@nil Event) |].
  fold (profile_cid cfg).
  destruct (fault OpPinningAdd) as [e|]; [pipeline_done (@nil Event) |].
  set (blk := mkBlock _ (profile_cid cfg)).
  rewrite (bind_Returned _ _ (emit EvNodeStarted w)
             (store_block blk (emit EvNodeStarted w)) None eq_refl).
  destruct (PublishIPNSRecordForDAGNode_cases (blk_cid blk) ""
              (store_block blk (emit EvNodeStarted w))) as [[e Hln] | Hln];
    rewrite (bind_Returned _ _ _ _ _ Hln);
    match goal with
    | |- context [bind (PutIPFSDAGBlockToW3S _ _) _ ?w3] =>
        destruct (CreateProfile_remote_part cfg core blk w3)
          as (rest & err & w' & Hrest & Hrun & Hev)
    end;
    rewrite Hrun.
  - exists (EvLocalPin (profile_cid cfg) :: rest), err, w'.
    split; [apply steps_pinned; exact Hrest |].
    split; [reflexivity |].
    rewrite Hev. events_norm. reflexivity.
  - exists (EvLocalPin (profile_cid cfg) :: EvLocalName (IpldPath (profile_cid cfg)) :: rest),
      err, w'.
    split; [apply steps_pinned_named; exact Hrest |].
    split; [reflexivity |].
    rewrite Hev. events_norm. reflexivity.
Qed.

Lemma CreateProfile_run (cfg : Config) (w : World) :
  exists tr,
    events (snd (CreateProfile cfg w)) = events w ++ tr /\
    profile_run (profile_cid cfg) tr.
Proof.
  destruct (fault OpDidParse) as [e|] eqn:Hdid.
  { exists []. unfold CreateProfile. rewrite Hdid.
    split; [symmetry; apply app_nil_r | constructor]. }
  destruct (cfg_Initialized cfg) eqn:Hinit.
  2:{ exists []. unfold CreateProfile, PanicIfNotInitialized. rewrite Hdid, Hinit.
      split; [symmetry; apply app_nil_r | constructor]. }
  destruct (fault OpResolveENS) as [e|] eqn:Hens.
  { exists []. unfold CreateProfile, PanicIfNotInitialized. rewrite Hdid, Hinit, Hens.
    split; [symmetry; apply app_nil_r | constructor]. }
  destruct (StartIPFSNode_cases (cfg_IPFSPrivKey cfg) (cfg_IPFSPubKey cfg) w)
    as [[why Hc] | [[e Hc] | [[e Hc] | Hc]]].
  - exists []. unfold CreateProfile, PanicIfNotInitialized. rewrite Hdid, Hinit, Hens.
    rewrite (bind_Returned (ret tt) _ w w tt eq_refl).
    rewrite (bind_Panicked _ _ _ _ _ Hc).
    split; [symmetry; apply app_nil_r | constructor].
  - exists []. unfold CreateProfile, PanicIfNotInitialized. rewrite Hdid, Hinit, Hens.
    rewrite (bind_Returned (ret tt) _ w w tt eq_refl).
    rewrite (bind_Returned _ _ _ _ _ Hc).
    split; [symmetry; apply app_nil_r | constructor].
  - exists [EvNodeStarted]. unfold CreateProfile, PanicIfNotInitialized.
    rewrite Hdid, Hinit, Hens.
    rewrite (bind_Returned (ret tt) _ w w tt eq_refl).
    rewrite (bind_Returned _ _ _ _ _ Hc).
    split; [reflexivity | constructor].
  - destruct (CreateProfile_after_start cfg w _ _ Hdid Hinit Hens Hc)
      as (steps & err & w' & Hsteps & Hrun & Hev).
    exists (EvNodeStarted :: steps ++ [EvNodeClosed]).
    rewrite Hrun. split; [exact Hev | constructor; exact Hsteps].
Qed.

Lemma trace_of_extends {A} (m : Go A) (w : World) (tr : list Event) :
  events (snd (m w)) = events w ++ tr -> trace_of m w = tr.
Proof. intros H. unfold trace_of. rewrite H. apply drop_app_length. Qed.

Lemma CreateProfile_trace (cfg : Config) (w : World) :
  profile_run (profile_cid cfg) (trace_of (CreateProfile cfg) w).
Proof.
  destruct (CreateProfile_run cfg w) as (tr & Hev & Hrun).
  rewrite (trace_of_extends _ _ _ Hev). exact Hrun.
Qed.

(** *** Shutdown *)

Lemma remote_steps_no_shutdown (c : Cid) (rest : list Event) :
  remote_steps c rest -> shutdown_calls rest = 0%nat.
Proof. intros H. destruct H; reflexivity. Qed.

Lemma pipeline_steps_no_shutdown (c : Cid) (steps : list Event) :
  pipeline_steps c steps -> shutdown_calls steps = 0%nat.
Proof.
  intros H. destruct H as [| rest Hr | rest Hr]; [reflexivity | |];
    apply (remote_steps_no_shutdown c rest Hr).
Qed.

Lemma shutdown_calls_app (l k : list Event) :
  shutdown_calls (l ++ k) = (shutdown_calls l + shutdown_calls k)%nat.
Proof. unfold shutdown_calls. rewrite List.filter_app, length_app. reflexivity. Qed.

(** C7. On every path of [CreateProfile] on which [StartIPFSNode] handed
    out the node, be it the success path or any error return after it,
    the operation returns, the shutdown function has run exactly once, and
    it ran last. *)
Theorem CreateProfile_shutdown_exactly_once
    (cfg : Config) (w w1 : World) (core : IPFSCore) :
  fault OpDidParse = None ->
  cfg_Initialized cfg = true ->
  fault OpResolveENS = None ->
  StartIPFSNode (cfg_IPFSPrivKey cfg) (cfg_IPFSPubKey cfg) w
    = (Returned (inl core), w1) ->
  (exists err, fst (CreateProfile cfg w) = Returned err) /\
  shutdown_calls (trace_of (CreateProfile cfg) w) = 1%nat /\
  last (trace_of (CreateProfile cfg) w) = Some EvNodeClosed.
Proof.
  intros Hdid Hinit Hens Hstart.
  destruct (CreateProfile_after_start cfg w w1 core Hdid Hinit Hens Hstart)
    as (steps & err & w' & Hsteps & Hrun & Hev).
  assert (Htr : trace_of (CreateProfile cfg) w
                = EvNodeStarted :: steps ++ [EvNodeClosed]).
  { apply trace_of_extends. rewrite Hrun. exact Hev. }
  rewrite Htr, Hrun. split; [exists err; reflexivity |]. split.
  - change (EvNodeStarted :: steps ++ [EvNodeClosed])
      with ([EvNodeStarted] ++ steps ++ [EvNodeClosed]).
    rewrite !shutdown_calls_app, (pipeline_steps_no_shutdown _ _ Hsteps).
    reflexivity.
  - change (EvNodeStarted :: steps ++ [EvNodeClosed])
      with ((EvNodeStarted :: steps) ++ [EvNodeClosed]).
    apply last_snoc.
Qed.

(** No run shuts down more than once, and a run that did not get the
    node from [StartIPFSNode] has nothing to shut down with. *)
Lemma CreateProfile_shutdown_at_most_once (cfg : Config) (w : World) :
  (shutdown_calls (trace_of (CreateProfile cfg) w) <= 1)%nat.
Proof.
  destruct (CreateProfile_trace cfg w) as [| | steps Hsteps].
  - cbn. lia.
  - cbn. lia.
  - change (EvNodeStarted :: steps ++ [EvNodeClosed])
      with ([EvNodeStarted] ++ steps ++ [EvNodeClosed]).
    rewrite !shutdown_calls_app, (pipeline_steps_no_shutdown _ _ Hsteps).
    cbn. lia.
Qed.

(** *** Order of the steps *)

Ltac lookup_cases H :=
  repeat match type of H with
         | (_ :: _) !! ?j = Some _ =>
             destruct j as [|j]; cbn in H; [try discriminate H |]
         | [] !! _ = Some _ => discriminate H
         end.

Ltac found_at i := exists i; split; [lia | reflexivity].

(** C4, as the code has it. Within one [CreateProfile], the block is
    stored locally before anything else is done with its Cid: the local
    name record, the remote archive and the remote name record each come
    after the local pin of the Cid they carry, and the remote name record
    comes after the remote archive.  The local name record, when it is
    published, is the very next effect after the local pin, and every
    remote archive of the run comes after it. *)
Theorem CreateProfile_order (cfg : Config) (w : World) :
  let tr := trace_of (CreateProfile cfg) w in
  (forall j p, tr !! j = Some (EvLocalName p) ->
     exists i, j = S i /\ tr !! i = Some (EvLocalPin (Path_Cid p))) /\
  (forall j c, tr !! j = Some (EvRemoteCar c) ->
     (exists i, (i < j)%nat /\ tr !! i = Some (EvLocalPin c)) /\
     (forall i p, tr !! i = Some (EvLocalName p) -> (i < j)%nat)) /\
  (forall j name r, tr !! j = Some (EvRemoteName name r) ->
     exists c, rec_value r = Path_String (IpfsPath c) /\
     (exists i, (i < j)%nat /\ tr !! i = Some (EvLocalPin c)) /\
     (exists i, (i < j)%nat /\ tr !! i = Some (EvRemoteCar c))).
Proof.
  cbv zeta.
  destruct (CreateProfile_trace cfg w) as [| | steps Hsteps];
    [ | | destruct Hsteps as [| rest Hrest | rest Hrest];
          [ | destruct Hrest as [| | name0 r0 Hval]
            | destruct Hrest as [| | name0 r0 Hval] ] ];
    cbn [app];
    (split; [| split]).
  all: try (intros j p H; lookup_cases H; injection H as <-; cbn [Path_Cid];
            exists 1%nat; split; reflexivity).
  all: try (intros j c H; lookup_cases H; injection H as <-;
            (split; [found_at 1%nat |]);
            intros i p Hi; lookup_cases Hi; lia).
  all: intros j name r H; lookup_cases H; injection H as <- <-;
    exists (profile_cid cfg); (split; [exact Hval |]);
    split; first [found_at 1%nat | found_at 2%nat | found_at 3%nat].
Qed.

(** *** The Cid parameters *)

Lemma profile_run_cids (c : Cid) (tr : list Event) :
  profile_run c tr ->
  forall e c', In e tr -> In c' (event_cids e) -> c' = c.
Proof.
  intros Hrun e c' He Hc.
  destruct Hrun as [| | steps Hsteps];
    [ | | destruct Hsteps as [| rest Hrest | rest Hrest];
          [ | destruct Hrest as [| | name0 r0 Hval]
            | destruct Hrest as [| | name0 r0 Hval] ] ];
    cbn in He; intuition (subst; cbn in Hc; intuition).
Qed.

(** C8. Every Cid derived for the profile block in [CreateProfile] and
    for a Nostr-event node in [PutNostrEventAsIPLDLink] has the same
    parameters, whatever the configuration, the event, the environment and
    the world: version 1, the DAG-JSON codec, SHA3-384 with a 48-byte
    digest. *)
Theorem derived_cids_have_fixed_parameters
    (cfg : Config) (w : World) (ipfs : IPFSCore) (evt : NostrEvent) (w2 : World)
    (c : Cid) :
  derived_cid cfg w ipfs evt w2 c ->
  cid_prefix c = mkPrefix 1 cid_DagJSON mh_SHA3_384 48 /\
  Version (cid_prefix c) = 1 /\
  MhType (cid_prefix c) = 0x15 /\
  MhLength (cid_prefix c) = 48.
Proof.
  intros Hc.
  assert (Hp : cid_prefix c = mkPrefix 1 cid_DagJSON mh_SHA3_384 48).
  { destruct Hc as [(e & He & Hin) | (err & Hrun)].
    - rewrite (profile_run_cids _ _ (CreateProfile_trace cfg w) e c He Hin).
      reflexivity.
    - unfold PutNostrEventAsIPLDLink in Hrun.
      destruct (fault OpBuildMap) as [e|]; [discriminate Hrun |].
      unfold LS_Store, bind in Hrun.
      destruct (Put ipfs _ _ w2) as [[a | why] w3]; [| discriminate Hrun].
      injection Hrun as <- _. reflexivity. }
  rewrite Hp. repeat split.
Qed.

End PipelineFacts.

(** The sibling write path, [Put]: the block does reach the local store,
    and a read of its link returns the bytes that were put, whatever
    becomes of the remote archive. *)
Section PutFacts.
Context {E : Env}.

Lemma OpenRead_stored (lnk : Link) (k : Cid) (w : World) (data : bytes) :
  CidFromBytes (Link_Binary lnk) = inl k ->
  fault OpBlockGet = None ->
  fault OpReadAll = None ->
  fault OpNewBlockWithCid = None ->
  decode_error k data = None ->
  blockstore w !! k = Some data ->
  fst (OpenRead lnk w) = Returned (Some (bytes_NewReader data), None).
Proof.
  intros Hlnk Hget Hread Hblk Hdec Hdata.
  unfold OpenRead. rewrite Hlnk.
  unfold bind, Block_Get, gets. cbv beta. rewrite Hget, Hdata, Hread.
  unfold NewBlockWithCid. rewrite Hblk.
  unfold DecodeNode, RawData, io_ReadAll, ret, panic. cbn.
  rewrite Hdec. reflexivity.
Qed.

Lemma Put_then_OpenRead
    (store : IPFSCore) (key : bytes) (lnk : Link) (k : Cid) (data : bytes) (w : World) :
  CidFromBytes key = inl k ->
  CidFromBytes (Link_Binary lnk) = inl k ->
  fault OpNewBlockWithCid = None ->
  fault OpPinningAdd = None ->
  fault OpBlockGet = None ->
  fault OpReadAll = None ->
  decode_error k data = None ->
  exists err w',
    Put store key data w = (Returned err, w') /\
    blockstore w' !! k = Some data /\
    fst (OpenRead lnk w') = Returned (Some (bytes_NewReader data), None).
Proof.
  intros Hkey Hlnk Hblk Hpin Hget Hread Hdec.
  unfold Put. rewrite Hkey. unfold NewBlockWithCid. rewrite Hblk. cbn [fst].
  unfold DecodeNode. cbn [blk_cid blk_data]. rewrite Hdec.
  rewrite (bind_Returned (ret (Some (mkLegacyNode (mkBlock data k)), None)) _ w w
             _ eq_refl).
  cbn [fst snd]. unfold Pinning_Add. rewrite Hpin.
  rewrite (bind_Returned (modify (store_block (mkBlock data k)) ;;; ret None) _ w
             (store_block (mkBlock data k) w) None eq_refl).
  assert (Hstored : blockstore (store_block (mkBlock data k) w) !! k = Some data).
  { unfold store_block. cbn [blockstore blk_cid blk_data]. apply lookup_insert_eq. }
  destruct (PutIPFSDAGBlockToW3S_cases (core_W3S_token store) (mkBlock data k)
              (store_block (mkBlock data k) w)) as [[e Hput] | [d Hput]];
    unfold PutIPFSDAGBlockToW3S in Hput;
    rewrite (bind_Returned _ _ _ _ _ Hput); cbn [snd];
    eexists; eexists; (split; [reflexivity |]); (split; [exact Hstored |]);
    apply (OpenRead_stored lnk k _ data Hlnk Hget Hread Hblk Hdec);
    exact Hstored.
Qed.

End PutFacts.

(** *** The publish operation on the sample inputs *)

(** The run of the sample publish in which every step succeeds. *)
Lemma sample_trace :
  trace_of (@CreateProfile (Sample.env Sample.no_fault) Sample.config) World_empty
  = [EvNodeStarted;
     EvLocalPin Sample.alice_cid;
     EvLocalName (IpldPath Sample.alice_cid);
     EvRemoteCar Sample.alice_cid;
     EvRemoteName Sample.alice_name alice_record;
     EvNodeClosed].
Proof. vm_compute. reflexivity. Qed.

(** The sample publish, once with every step succeeding and once with the
    upload of the archive refused: one shutdown each, at the end. *)
Lemma CreateProfile_shutdown_exactly_once_witness :
  ((exists err,
      fst (@CreateProfile (Sample.env Sample.no_fault) Sample.config World_empty)
        = Returned err) /\
   shutdown_calls
     (trace_of (@CreateProfile (Sample.env Sample.no_fault) Sample.config)
        World_empty) = 1%nat /\
   last (trace_of (@CreateProfile (Sample.env Sample.no_fault) Sample.config)
           World_empty) = Some EvNodeClosed) /\
  ((exists err,
      fst (@CreateProfile (Sample.env (Sample.only OpPutCar connection_refused))
             Sample.config World_empty) = Returned err) /\
   shutdown_calls
     (trace_of (@CreateProfile (Sample.env (Sample.only OpPutCar connection_refused))
                  Sample.config) World_empty) = 1%nat /\
   last (trace_of (@CreateProfile (Sample.env (Sample.only OpPutCar connection_refused))
                     Sample.config) World_empty) = Some EvNodeClosed).
Proof.
  split.
  - apply (@CreateProfile_shutdown_exactly_once (Sample.env Sample.no_fault)
             Sample.config World_empty (emit EvNodeStarted World_empty)
             (mkIPFSCore "none")); reflexivity.
  - apply (@CreateProfile_shutdown_exactly_once
             (Sample.env (Sample.only OpPutCar connection_refused))
             Sample.config World_empty (emit EvNodeStarted World_empty)
             (mkIPFSCore "none")); reflexivity.
Defined.

(** In the sample run the local name record, third event, comes right
    after the local pin; every local name record comes before the remote
    archive, fourth event; and the remote name record, fifth event, points
    at a Cid pinned and archived before it. *)
Lemma CreateProfile_order_witness :
  (exists i, 2%nat = S i /\
     trace_of (@CreateProfile (Sample.env Sample.no_fault) Sample.config)
       World_empty !! i = Some (EvLocalPin Sample.alice_cid)) /\
  (forall i p,
     trace_of (@CreateProfile (Sample.env Sample.no_fault) Sample.config)
       World_empty !! i = Some (EvLocalName p) -> (i < 3)%nat) /\
  (exists c,
     rec_value alice_record
       = @Path_String (Sample.env Sample.no_fault) (IpfsPath c) /\
     (exists i, (i < 4)%nat /\
        trace_of (@CreateProfile (Sample.env Sample.no_fault) Sample.config)
          World_empty !! i = Some (EvLocalPin c)) /\
     (exists i, (i < 4)%nat /\
        trace_of (@CreateProfile (Sample.env Sample.no_fault) Sample.config)
          World_empty !! i = Some (EvRemoteCar c))).
Proof.
  split; [| split].
  - apply (proj1 (@CreateProfile_order (Sample.env Sample.no_fault)
                    Sample.config World_empty)
             2%nat (IpldPath Sample.alice_cid)).
    vm_compute. reflexivity.
  - apply (proj1 (proj2 (@CreateProfile_order (Sample.env Sample.no_fault)
                           Sample.config World_empty))
             3%nat Sample.alice_cid).
    vm_compute. reflexivity.
  - apply (proj2 (proj2 (@CreateProfile_order (Sample.env Sample.no_fault)
                           Sample.config World_empty))
             4%nat Sample.alice_name alice_record).
    vm_compute. reflexivity.
Defined.

(** C4 fails on the code: on the run in which every step succeeds the
    local name record is the third event, after the local pin, and the
    remote archive only the fourth. *)
Lemma archival_before_names_counterexample :
  ~ archival_before_names
      (trace_of (@CreateProfile (Sample.env Sample.no_fault) Sample.config)
         World_empty).
Proof.
  rewrite sample_trace. intros Hord.
  destruct (Hord 2%nat (EvLocalName (IpldPath Sample.alice_cid)) eq_refl I)
    as (i & e' & Hlt & Hi & Harch).
  destruct i as [|[|i]]; cbn in Hi.
  - injection Hi as <-. exact Harch.
  - injection Hi as <-. exact Harch.
  - lia.
Qed.

(** C5. With the local name-record publish failing and every other step
    succeeding, [PublishIPNSRecordForDAGNode] returns its error, and
    [CreateProfile] goes on to the remote steps and returns nil: the
    result of the call is dropped at the call site. *)
Theorem CreateProfile_swallows_local_name_error :
  let E := Sample.env (Sample.only OpNamePublish routing_not_found) in
  (forall w,
     fst (@PublishIPNSRecordForDAGNode E Sample.alice_cid "" w)
       = Returned (Some (Errorf
           "error publishing IPNS record using IPFS node key "
           routing_not_found))) /\
  fst (@CreateProfile E Sample.config World_empty) = Returned None /\
  trace_of (@CreateProfile E Sample.config) World_empty
    = [EvNodeStarted;
       EvLocalPin Sample.alice_cid;
       EvRemoteCar Sample.alice_cid;
       EvRemoteName Sample.alice_name alice_record;
       EvNodeClosed].
Proof.
  cbv zeta. split; [| split].
  - intros w. reflexivity.
  - vm_compute. reflexivity.
  - vm_compute. reflexivity.
Qed.

(** The Cid of the sample profile and the link of the sample event. *)
Lemma derived_cids_have_fixed_parameters_witness :
  (cid_prefix Sample.alice_cid = mkPrefix 1 cid_DagJSON mh_SHA3_384 48 /\
   Version (cid_prefix Sample.alice_cid) = 1 /\
   MhType (cid_prefix Sample.alice_cid) = 0x15 /\
   MhLength (cid_prefix Sample.alice_cid) = 48) /\
  (let c := mkCid PutNostrEvent_Prefix
              (Sample.digest mh_SHA3_384 48 (list_byte_of_string "0")) in
   fst (@PutNostrEventAsIPLDLink (Sample.env Sample.no_fault)
          (mkIPFSCore "none") sample_event World_empty)
     = Returned (Some c, None) /\
   cid_prefix c = mkPrefix 1 cid_DagJSON mh_SHA3_384 48).
Proof.
  split.
  - apply (@derived_cids_have_fixed_parameters (Sample.env Sample.no_fault)
             Sample.config World_empty (mkIPFSCore "none") sample_event
             World_empty Sample.alice_cid).
    left. exists (EvLocalPin Sample.alice_cid). rewrite sample_trace.
    split; [right; left; reflexivity | left; reflexivity].
  - cbv zeta. split; [vm_compute; reflexivity |].
    apply (@derived_cids_have_fixed_parameters (Sample.env Sample.no_fault)
             Sample.config World_empty (mkIPFSCore "none") sample_event
             World_empty).
    right. exists None. vm_compute. reflexivity.
Defined.

(** * Further properties *)

(** ** The local store adapter, continued *)

Section StoreMore.
Context {E : Env}.

Ltac read_cases k :=
  destruct (fault OpBlockGet); [reflexivity |];
  match goal with
  | |- context [blockstore ?w !! k] =>
      destruct (blockstore w !! k); [| reflexivity]
  end;
  destruct (fault OpReadAll); cbn [fst rd_data];
    (destruct (fault OpNewBlockWithCid); [reflexivity |]);
    cbn [fst blk_cid blk_data];
    match goal with
    | |- context [decode_error ?a ?b] => destruct (decode_error a b)
    end; reflexivity.

(** X1. The three read operations of the adapter leave the world as it
    is, on every input and whatever they return. *)
Theorem reads_leave_the_world (key : bytes) (lnk : Link) (w : World) :
  snd (Has key w) = w /\ snd (Get key w) = w /\ snd (OpenRead lnk w) = w.
Proof.
  unfold Has, Get, OpenRead, Block_Stat, Block_Get, NewBlockWithCid,
    DecodeNode, RawData, io_ReadAll, bind, gets, ret, panic.
  split; [| split].
  - destruct (CidFromBytes key); reflexivity.
  - destruct (CidFromBytes key) as [k|e]; [| reflexivity]. read_cases k.
  - destruct (CidFromBytes (Link_Binary lnk)) as [k|e]; [| reflexivity].
    read_cases k.
Qed.

(** X2. [Get] on the binary form of a link and [OpenRead] on the link agree:
    both return the same bytes, or both fail with the same error ([Get]
    with an empty slice, [OpenRead] with a nil reader), or both panic. *)
Theorem Get_OpenRead_agree (lnk : Link) (w : World) :
  match fst (Get (Link_Binary lnk) w), fst (OpenRead lnk w) with
  | Returned (b, None), Returned (Some r, None) => io_ReadAll r = (b, None)
  | Returned (b, Some e), Returned (None, Some e') => b = [] /\ e = e'
  | Panicked a, Panicked a' => a = a'
  | _, _ => False
  end.
Proof.
  unfold Get, OpenRead, Block_Get, NewBlockWithCid,
    DecodeNode, RawData, io_ReadAll, bytes_NewReader, bind, gets, ret, panic.
  destruct (CidFromBytes (Link_Binary lnk)) as [k|e]; [| cbn; auto].
  destruct (fault OpBlockGet); [cbn; auto |].
  destruct (blockstore w !! k) as [data|]; [| cbn; auto].
  destruct (fault OpReadAll); cbn [fst rd_data];
    (destruct (fault OpNewBlockWithCid); [cbn; auto |]);
    cbn [fst blk_cid blk_data];
    match goal with
    | |- context [decode_error ?a ?b] => destruct (decode_error a b)
    end; cbn; auto.
Qed.

Lemma Get_stored (key : bytes) (k : Cid) (w : World) (data : bytes) :
  CidFromBytes key = inl k ->
  fault OpBlockGet = None ->
  fault OpReadAll = None ->
  fault OpNewBlockWithCid = None ->
  decode_error k data = None ->
  blockstore w !! k = Some data ->
  fst (Get key w) = Returned (data, None).
Proof.
  intros Hkey Hget Hread Hblk Hdec Hdata.
  unfold Get. rewrite Hkey.
  unfold bind, Block_Get, gets. cbv beta. rewrite Hget, Hdata, Hread.
  unfold NewBlockWithCid. rewrite Hblk.
  unfold DecodeNode, RawData, io_ReadAll, ret, panic. cbn.
  rewrite Hdec. reflexivity.
Qed.

(** X3. Round trip of the storage adapter: when the key and the link name the
    same Cid, the data decodes and the local node works, [Put] stores the
    block so that [Get] and [OpenRead] return exactly the bytes that were
    put, also when the remote archive fails and [Put] returns its
    error. *)
Theorem Put_then_Get
    (store : IPFSCore) (key : bytes) (lnk : Link) (k : Cid) (data : bytes) (w : World) :
  CidFromBytes key = inl k ->
  CidFromBytes (Link_Binary lnk) = inl k ->
  fault OpNewBlockWithCid = None ->
  fault OpPinningAdd = None ->
  fault OpBlockGet = None ->
  fault OpReadAll = None ->
  decode_error k data = None ->
  exists err w',
    Put store key data w = (Returned err, w') /\
    fst (Get key w') = Returned (data, None) /\
    fst (OpenRead lnk w') = Returned (Some (bytes_NewReader data), None).
Proof.
  intros Hkey Hlnk Hblk Hpin Hget Hread Hdec.
  destruct (Put_then_OpenRead store key lnk k data w Hkey Hlnk Hblk Hpin Hget Hread Hdec)
    as (err & w' & Hput & Hstored & Hopen).
  exists err, w'. split; [exact Hput |]. split; [| exact Hopen].
  apply (Get_stored key k w' data Hkey Hget Hread Hblk Hdec Hstored).
Qed.

(** X4. A nil return of [Put] means the key was a Cid, the data decoded, and
    the block is now in the local store, pinned, and archived remotely
    under that Cid. *)
Theorem Put_nil_means_stored
    (store : IPFSCore) (key : bytes) (data : bytes) (w w' : World) :
  Put store key data w = (Returned None, w') ->
  exists k,
    CidFromBytes key = inl k /\
    decode_error k data = None /\
    blockstore w' !! k = Some data /\
    k ∈ pins w' /\
    k ∈ w3s_cars w'.
Proof.
  unfold Put, NewBlockWithCid, DecodeNode, Pinning_Add.
  destruct (CidFromBytes key) as [k|e]; [| discriminate].
  destruct (fault OpNewBlockWithCid); [discriminate |].
  cbn [fst blk_cid blk_data].
  destruct (decode_error k data) as [e|] eqn:Hdec.
  { intros H. rewrite (bind_Returned (ret (None, Some e)) _ w w _ eq_refl) in H.
    discriminate H. }
  rewrite (bind_Returned (ret (Some (mkLegacyNode (mkBlock data k)), None)) _ w w
             _ eq_refl).
  cbn [fst snd].
  destruct (fault OpPinningAdd) as [e|].
  { intros H. rewrite (bind_Returned (ret (Some e)) _ w w _ eq_refl) in H.
    discriminate H. }
  rewrite (bind_Returned (modify (store_block (mkBlock data k)) ;;; ret None) _ w
             (store_block (mkBlock data k) w) None eq_refl).
  destruct (PutIPFSDAGBlockToW3S_cases (core_W3S_token store) (mkBlock data k)
              (store_block (mkBlock data k) w)) as [[e Hput] | [d Hput]];
    unfold PutIPFSDAGBlockToW3S in Hput;
    rewrite (bind_Returned _ _ _ _ _ Hput); cbn [snd]; intros H.
  - discriminate H.
  - injection H as <-. exists k. split; [reflexivity |]. split; [exact Hdec |].
    unfold add_car, store_block.
    cbn [blockstore pins w3s_cars blk_cid blk_data car_root].
    split; [apply lookup_insert_eq |]. split; set_solver.
Qed.

(** X5. After an error of [Put] nothing has reached the remote archive, and
    the local node is either untouched or holds exactly the new block,
    stored and pinned: a failure of the remote step is returned without
    undoing the local one. *)
Theorem Put_error_keeps_local
    (store : IPFSCore) (key : bytes) (data : bytes) (w w' : World) (e : error) :
  Put store key data w = (Returned (Some e), w') ->
  w' = w \/
  (exists k, CidFromBytes key = inl k /\ w' = store_block (mkBlock data k) w).
Proof.
  unfold Put, NewBlockWithCid, DecodeNode, Pinning_Add.
  destruct (CidFromBytes key) as [k|e0].
  2:{ intros H. injection H as _ <-. left. reflexivity. }
  destruct (fault OpNewBlockWithCid); [discriminate |].
  cbn [fst blk_cid blk_data].
  destruct (decode_error k data) as [e0|] eqn:Hdec.
  { intros H. rewrite (bind_Returned (ret (None, Some e0)) _ w w _ eq_refl) in H.
    injection H as _ <-. left. reflexivity. }
  rewrite (bind_Returned (ret (Some (mkLegacyNode (mkBlock data k)), None)) _ w w
             _ eq_refl).
  cbn [fst snd].
  destruct (fault OpPinningAdd) as [e0|].
  { intros H. rewrite (bind_Returned (ret (Some e0)) _ w w _ eq_refl) in H.
    injection H as _ <-. left. reflexivity. }
  rewrite (bind_Returned (modify (store_block (mkBlock data k)) ;;; ret None) _ w
             (store_block (mkBlock data k) w) None eq_refl).
  destruct (PutIPFSDAGBlockToW3S_cases (core_W3S_token store) (mkBlock data k)
              (store_block (mkBlock data k) w)) as [[e0 Hput] | [d Hput]];
    unfold PutIPFSDAGBlockToW3S in Hput;
    rewrite (bind_Returned _ _ _ _ _ Hput); cbn [snd]; intros H.
  - injection H as _ <-. right. exists k. split; reflexivity.
  - discriminate H.
Qed.

End StoreMore.

(** On the sample node, with the upload to the archive refused or not:
    the block [{}] put under the sample key reads back. *)
Lemma Put_then_Get_witness :
  exists err w',
    @Put (Sample.env (Sample.only OpPutCar connection_refused))
       (mkIPFSCore "none") Sample.key [x7b; x7d] World_empty = (Returned err, w') /\
    fst (@Get (Sample.env (Sample.only OpPutCar connection_refused)) Sample.key w')
      = Returned ([x7b; x7d], None) /\
    fst (@OpenRead (Sample.env (Sample.only OpPutCar connection_refused))
           Sample.key_cid w')
      = Returned (Some (bytes_NewReader [x7b; x7d]), None).
Proof.
  apply (@Put_then_Get (Sample.env (Sample.only OpPutCar connection_refused))
           (mkIPFSCore "none") Sample.key Sample.key_cid Sample.key_cid
           [x7b; x7d] World_empty); reflexivity.
Defined.

(** The sample put with every call succeeding. *)
Lemma Put_nil_means_stored_witness :
  exists k,
    @CidFromBytes (Sample.env Sample.no_fault) Sample.key = inl k /\
    @decode_error (Sample.env Sample.no_fault) k [x7b; x7d] = None /\
    blockstore (snd (@Put (Sample.env Sample.no_fault) (mkIPFSCore "none")
                       Sample.key [x7b; x7d] World_empty)) !! k
      = Some [x7b; x7d] /\
    k ∈ pins (snd (@Put (Sample.env Sample.no_fault) (mkIPFSCore "none")
                     Sample.key [x7b; x7d] World_empty)) /\
    k ∈ w3s_cars (snd (@Put (Sample.env Sample.no_fault) (mkIPFSCore "none")
                         Sample.key [x7b; x7d] World_empty)).
Proof.
  apply (@Put_nil_means_stored (Sample.env Sample.no_fault) (mkIPFSCore "none")
           Sample.key [x7b; x7d] World_empty).
  vm_compute. reflexivity.
Defined.

(** The sample put with the upload refused: the error comes back and
    the block stays in the local store. *)
Lemma Put_error_keeps_local_witness :
  let E := Sample.env (Sample.only OpPutCar connection_refused) in
  let w' := snd (@Put E (mkIPFSCore "none") Sample.key [x7b; x7d] World_empty) in
  w' = World_empty \/
  (exists k, @CidFromBytes E Sample.key = inl k /\
             w' = @store_block (mkBlock [x7b; x7d] k) World_empty).
Proof.
  cbv zeta.
  apply (@Put_error_keeps_local (Sample.env (Sample.only OpPutCar connection_refused))
           (mkIPFSCore "none") Sample.key [x7b; x7d] World_empty _
           connection_refused).
  vm_compute. reflexivity.
Defined.

(** ** The link writer, continued *)

Section LinkWriterMore.
Context {E : Env}.

(** X6. No operation of the link writer ever puts a byte into a buffer: from
    a world whose writers are all empty, [OpenWrite], [Write] and the
    committer lead to such a world again, the committer changes nothing at
    all, and a [Write] to any writer returns 0 written bytes, with
    [io.EOF] unless the slice is empty, and leaves the slice as it was. *)
Theorem link_writers_never_buffer (w : World) :
  buffers_empty w ->
  (forall lnk, buffers_empty (snd (OpenWrite lnk w))) /\
  (forall ptr d, buffers_empty (snd (IPFSLinkWriter_Write ptr d w))) /\
  (forall ptr lnk, BlockWriteCommit ptr lnk w = (Returned None, w)) /\
  (forall ptr lw d, writers w !! ptr = Some lw ->
     fst (IPFSLinkWriter_Write ptr d w) =
       Returned ((0%nat, match d with [] => None | _ => Some io_EOF end), d)).
Proof.
  intros Hinv. unfold buffers_empty in *.
  split; [| split; [| split]].
  - intros lnk. unfold OpenWrite.
    destruct (CidFromBytes (Link_Binary lnk)) as [k|e]; cbn [snd ret].
    + unfold new_writer. cbn [writers]. apply Forall_app. split; [exact Hinv |].
      constructor; [reflexivity | constructor].
    + exact Hinv.
  - intros ptr d. unfold IPFSLinkWriter_Write.
    destruct (writers w !! ptr) as [lw|] eqn:Hptr; [| exact Hinv].
    rewrite (proj1 (Forall_lookup _ _) Hinv ptr lw Hptr).
    destruct d as [|b d]; cbn [Buffer.Read Buffer.empty length Nat.eqb snd];
      unfold set_writer; cbn [writers];
      apply Forall_insert; [exact Hinv | reflexivity | exact Hinv | reflexivity].
  - intros ptr lnk. reflexivity.
  - intros ptr lw d Hptr. unfold IPFSLinkWriter_Write. rewrite Hptr.
    rewrite (proj1 (Forall_lookup _ _) Hinv ptr lw Hptr).
    destruct d as [|b d]; reflexivity.
Qed.

End LinkWriterMore.

(** A world with one open writer: a [Write] of no bytes returns 0 and
    nil. *)
Lemma link_writers_never_buffer_witness :
  let E := Sample.env Sample.no_fault in
  let w := snd (@OpenWrite E Sample.key_cid World_empty) in
  fst (IPFSLinkWriter_Write 0%nat [] w) = Returned ((0%nat, None), []) /\
  fst (IPFSLinkWriter_Write 0%nat [x68; x69] w)
    = Returned ((0%nat, Some io_EOF), [x68; x69]).
Proof.
  cbv zeta.
  assert (Hinv : buffers_empty
                   (snd (@OpenWrite (Sample.env Sample.no_fault)
                           Sample.key_cid World_empty))).
  { repeat constructor. }
  destruct (@link_writers_never_buffer (Sample.env Sample.no_fault) _ Hinv)
    as (_ & _ & _ & Hwrite).
  split.
  - apply (Hwrite 0%nat (mkLinkWriter Sample.key_cid []) []). reflexivity.
  - apply (Hwrite 0%nat (mkLinkWriter Sample.key_cid []) [x68; x69]). reflexivity.
Defined.

(** ** The name publisher, continued *)

Section PublisherMore.
Context {E : Env}.

(** X7. A publish never panics, and a publish that returns an error has
    changed nothing: no record is stored unless every step succeeded. *)
Theorem Publish_error_changes_nothing
    (tok : string) (c : Cid) (privkey pubkey : bytes) (w : World) :
  (exists err, fst (PublishIPNSRecordForDAGNodeToW3S tok c privkey pubkey w)
               = Returned err) /\
  (forall e, fst (PublishIPNSRecordForDAGNodeToW3S tok c privkey pubkey w)
             = Returned (Some e) ->
             snd (PublishIPNSRecordForDAGNodeToW3S tok c privkey pubkey w) = w).
Proof.
  destruct (Publish_cases tok c privkey pubkey w) as [[e0 H] | H]; rewrite H.
  - split; [eexists; reflexivity | intros; reflexivity].
  - split; [eexists; reflexivity | intros e He; discriminate He].
Qed.

(** X8. What a successful publish leaves at the service: under the name of the
    public key, a record whose value is the path [/ipfs/c], whose validity
    ends 48 hours after the current time, signed with the private key,
    with the public key embedded and a sequence number that fits a
    [uint64]; the records of all other names, and both stores, are as
    before. *)
Theorem Publish_stores_record
    (tok : string) (c : Cid) (privkey pubkey : bytes) (w w' : World) :
  PublishIPNSRecordForDAGNodeToW3S tok c privkey pubkey w = (Returned None, w') ->
  (exists r,
     w3s_names w' !! pubkey_name pubkey = Some r /\
     rec_value r = Path_String (IpfsPath c) /\
     rec_validity r = time_Now + 172800 * 1000000000 /\
     rec_signer r = privkey /\
     rec_pubkey r = Some pubkey /\
     0 <= rec_sequence r < 2 ^ 64) /\
  (forall name, name <> pubkey_name pubkey ->
     w3s_names w' !! name = w3s_names w !! name) /\
  blockstore w' = blockstore w /\
  w3s_cars w' = w3s_cars w.
Proof.
  intros Hrun.
  destruct (Publish_cases tok c privkey pubkey w) as [[e0 H] | H];
    rewrite H in Hrun; [discriminate Hrun |].
  injection Hrun as <-.
  unfold set_name. cbn [w3s_names blockstore w3s_cars].
  split; [| split; [| split; reflexivity]].
  - exists (new_record w c privkey pubkey).
    split; [apply lookup_insert_eq |].
    unfold new_record, next_sequence, uint64_add, validity_window.
    cbn [rec_value rec_validity rec_signer rec_pubkey rec_sequence].
    repeat split; try reflexivity;
      destruct (fault OpGetName); try lia;
      destruct (w3s_names w !! Path_String (IpfsPath c)); try lia;
      apply Z.mod_pos_bound; lia.
  - intros name Hne. apply lookup_insert_ne. congruence.
Qed.

(** X9. When the lookup does return a record, the new sequence number is the
    one of that record plus 1 as a [uint64]: from the largest value it
    wraps around to 0. *)
Theorem Publish_sequence_increments
    (tok : string) (c : Cid) (privkey pubkey : bytes) (w w' : World)
    (prev : IpnsRecord) :
  fault OpGetName = None ->
  w3s_names w !! Path_String (IpfsPath c) = Some prev ->
  PublishIPNSRecordForDAGNodeToW3S tok c privkey pubkey w = (Returned None, w') ->
  exists r,
    w3s_names w' !! pubkey_name pubkey = Some r /\
    rec_sequence r = (rec_sequence prev + 1) mod 2 ^ 64 /\
    (rec_sequence prev = 2 ^ 64 - 1 -> rec_sequence r = 0) /\
    (0 <= rec_sequence prev < 2 ^ 64 - 1 -> rec_sequence r = rec_sequence prev + 1).
Proof.
  intros Hget Hprev Hrun.
  destruct (Publish_cases tok c privkey pubkey w) as [[e0 H] | H];
    rewrite H in Hrun; [discriminate Hrun |].
  injection Hrun as <-.
  exists (new_record w c privkey pubkey).
  unfold set_name. cbn [w3s_names].
  split; [apply lookup_insert_eq |].
  unfold new_record, next_sequence, uint64_add. cbn [rec_sequence].
  rewrite Hget, Hprev.
  split; [reflexivity |]. split.
  - intros ->. reflexivity.
  - intros Hb. apply Z.mod_small. lia.
Qed.

End PublisherMore.

(** The sample publish with the last step, [PutName], refused: the record
    of sequence 5 is still the one held. *)
Lemma Publish_error_changes_nothing_witness :
  let E := Sample.env (Sample.only OpPutName connection_refused) in
  snd (@PublishIPNSRecordForDAGNodeToW3S E "w3s-token" Sample.alice_cid
         [x01] [x02] (Sample.naming Sample.alice_name Sample.old_record))
    = Sample.naming Sample.alice_name Sample.old_record.
Proof.
  cbv zeta.
  apply (proj2 (@Publish_error_changes_nothing
                  (Sample.env (Sample.only OpPutName connection_refused))
                  "w3s-token" Sample.alice_cid [x01] [x02]
                  (Sample.naming Sample.alice_name Sample.old_record))
           connection_refused).
  vm_compute. reflexivity.
Defined.

(** The record the sample publish leaves under the sample name. *)
Lemma Publish_stores_record_witness :
  let E := Sample.env Sample.no_fault in
  let w' := snd (@PublishIPNSRecordForDAGNodeToW3S E "w3s-token" Sample.alice_cid
                   [x01] [x02] World_empty) in
  exists r,
    w3s_names w' !! Sample.alice_name = Some r /\
    rec_value r = @Path_String E (IpfsPath Sample.alice_cid) /\
    rec_validity r = 1700000000000000000 + 172800 * 1000000000 /\
    rec_signer r = [x01] /\
    rec_pubkey r = Some [x02] /\
    0 <= rec_sequence r < 2 ^ 64.
Proof.
  cbv zeta.
  apply (proj1 (@Publish_stores_record (Sample.env Sample.no_fault)
                  "w3s-token" Sample.alice_cid [x01] [x02] World_empty _
                  ltac:(vm_compute; reflexivity))).
Defined.

(** With a record of the largest sequence number stored under the text of
    the target path, the sample publish stores sequence 0. *)
Lemma Publish_sequence_increments_witness :
  let E := Sample.env Sample.no_fault in
  let prev := mkIpnsRecord "/ipfs/bafyold" (2 ^ 64 - 1) 0 [x01] None in
  let w := Sample.naming (@Path_String E (IpfsPath Sample.alice_cid)) prev in
  let w' := snd (@PublishIPNSRecordForDAGNodeToW3S E "w3s-token" Sample.alice_cid
                   [x01] [x02] w) in
  exists r, w3s_names w' !! Sample.alice_name = Some r /\ rec_sequence r = 0.
Proof.
  cbv zeta.
  destruct (@Publish_sequence_increments (Sample.env Sample.no_fault)
              "w3s-token" Sample.alice_cid [x01] [x02]
              (Sample.naming
                 (@Path_String (Sample.env Sample.no_fault) (IpfsPath Sample.alice_cid))
                 (mkIpnsRecord "/ipfs/bafyold" (2 ^ 64 - 1) 0 [x01] None))
              _ (mkIpnsRecord "/ipfs/bafyold" (2 ^ 64 - 1) 0 [x01] None)
              eq_refl ltac:(vm_compute; reflexivity) ltac:(vm_compute; reflexivity))
    as (r & Hr & _ & Hwrap & _).
  exists r. split; [exact Hr | apply Hwrap; reflexivity].
Defined.

(** ** Looking a name up *)

Section LookupFacts.
Context {E : Env} {X : Extern}.

(** X11. A published record can be looked up by its name: when the library
    splits the path [/ipfs/c] into [ipfs] and the text of [c] and parses
    that text back to [c], [GetIPNSRecordFromW3S] on the name of the key
    returns the Cid that [PublishIPNSRecordForDAGNodeToW3S] was given. *)
Theorem Publish_then_GetIPNSRecord
    (tok : string) (c : Cid) (privkey pubkey : bytes) (w w' : World) :
  fault OpGetName = None ->
  path_Segments (Path_String (IpfsPath c)) = ["ipfs"; cid_String c] ->
  cid_Parse (cid_String c) = inl c ->
  PublishIPNSRecordForDAGNodeToW3S tok c privkey pubkey w = (Returned None, w') ->
  GetIPNSRecordFromW3S tok (pubkey_name pubkey) w' = (Returned (c, None), w').
Proof.
  intros Hget Hseg Hparse Hrun.
  assert (Hclient : fault OpW3SNewClient = None).
  { destruct (fault OpW3SNewClient) as [e|] eqn:Hc; [| reflexivity].
    unfold PublishIPNSRecordForDAGNodeToW3S, GetIPNSPublicKeyName, w3s_NewClient in Hrun.
    rewrite Hc in Hrun.
    destruct (fault OpUnmarshalPublicKey); [discriminate Hrun |].
    destruct (fault OpIDFromPublicKey); discriminate Hrun. }
  destruct (Publish_cases tok c privkey pubkey w) as [[e0 H] | H];
    rewrite H in Hrun; [discriminate Hrun |].
  injection Hrun as <-.
  unfold GetIPNSRecordFromW3S, w3s_NewClient. rewrite Hclient.
  unfold bind, w3s_GetName, gets. cbv beta. rewrite Hget.
  unfold set_name at 1. cbn [w3s_names]. rewrite lookup_insert_eq.
  cbn [fst]. unfold new_record at 1. cbn [rec_value].
  rewrite Hseg. cbn. rewrite Hparse. reflexivity.
Qed.

(** X12. [GetIPNSRecordFromW3S] on a name the service cannot be asked for or
    does not hold returns the undefined Cid with the error of the lookup
    and changes nothing; on a record whose value has fewer than two path
    segments it panics on the index. *)
Theorem GetIPNSRecord_edges (tok : string) (name : string) (w : World) :
  fault OpW3SNewClient = None ->
  (forall e, fault OpGetName = Some e ->
     GetIPNSRecordFromW3S tok name w = (Returned (cid_Undef, Some e), w)) /\
  (fault OpGetName = None -> w3s_names w !! name = None ->
     GetIPNSRecordFromW3S tok name w = (Returned (cid_Undef, Some ErrNotFound), w)) /\
  (forall r, fault OpGetName = None -> w3s_names w !! name = Some r ->
     (length (path_Segments (rec_value r)) < 2)%nat ->
     GetIPNSRecordFromW3S tok name w = (Panicked "index out of range", w)).
Proof.
  intros Hclient.
  unfold GetIPNSRecordFromW3S, w3s_NewClient. rewrite Hclient.
  unfold bind, w3s_GetName, gets. cbv beta.
  split; [| split].
  - intros e He. rewrite He. reflexivity.
  - intros Hget Hname. rewrite Hget, Hname. reflexivity.
  - intros r Hget Hname Hlen. rewrite Hget, Hname. cbn [fst].
    rewrite (proj2 (lookup_ge_None (path_Segments (rec_value r)) 1%nat)) by lia.
    reflexivity.
Qed.

End LookupFacts.

(** The sample publish of the sample key's Cid, then the lookup of the
    name on the sample collaborators. *)
Lemma Publish_then_GetIPNSRecord_witness :
  let E := Sample.env Sample.no_fault in
  let X := SampleExtern.extern [] in
  let w' := snd (@PublishIPNSRecordForDAGNodeToW3S E "w3s-token" Sample.key_cid
                   [x01] [x02] World_empty) in
  @GetIPNSRecordFromW3S E X "w3s-token" Sample.alice_name w'
    = (Returned (Sample.key_cid, None), w').
Proof.
  cbv zeta.
  apply (@Publish_then_GetIPNSRecord (Sample.env Sample.no_fault)
           (SampleExtern.extern []) "w3s-token" Sample.key_cid [x01] [x02]
           World_empty); vm_compute; reflexivity.
Defined.

(** A record whose value is a bare Cid text, without [/ipfs/]. *)
Lemma GetIPNSRecord_edges_witness :
  let E := Sample.env Sample.no_fault in
  let X := SampleExtern.extern [] in
  let w := Sample.naming Sample.alice_name
             (mkIpnsRecord "bafybare" 1 0 [x01] None) in
  @GetIPNSRecordFromW3S E X "w3s-token" Sample.alice_name w
    = (Panicked "index out of range", w).
Proof.
  cbv zeta.
  apply (proj2 (proj2 (@GetIPNSRecord_edges (Sample.env Sample.no_fault)
                         (SampleExtern.extern []) "w3s-token" Sample.alice_name
                         (Sample.naming Sample.alice_name
                            (mkIpnsRecord "bafybare" 1 0 [x01] None))
                         eq_refl))
           (mkIpnsRecord "bafybare" 1 0 [x01] None) eq_refl).
  - vm_compute. reflexivity.
  - vm_compute. lia.
Defined.

(** ** The publish operation, continued *)

Section PipelineMore.
Context {E : Env}.






(** X14. When the node has been built but [StartIPFSNode] then fails, making
    the API or the Web3.Storage client, it returns the error without
    closing the node; [CreateProfile] returns that error with the node
    started and the shutdown function never run. *)
Theorem CreateProfile_start_failure_leaves_node (cfg : Config) (w : World) (e : error) :
  fault OpDidParse = None ->
  cfg_Initialized cfg = true ->
  fault OpResolveENS = None ->
  fault OpUnmarshalPublicKey = None ->
  fault OpIDFromPublicKey = None ->
  fault OpNewNode = None ->
  (fault OpNewCoreAPI = Some e \/
   (fault OpNewCoreAPI = None /\ fault OpW3SNewClient = Some e)) ->
  StartIPFSNode (cfg_IPFSPrivKey cfg) (cfg_IPFSPubKey cfg) w
    = (Returned (inr e), emit EvNodeStarted w) /\
  CreateProfile cfg w = (Returned (Some e), emit EvNodeStarted w) /\
  trace_of (CreateProfile cfg) w = [EvNodeStarted] /\
  shutdown_calls (trace_of (CreateProfile cfg) w) = 0%nat.
Proof.
  intros Hdid Hinit Hens Hpk Hid Hnode Hfail.
  assert (Hstart : StartIPFSNode (cfg_IPFSPrivKey cfg) (cfg_IPFSPubKey cfg) w
                   = (Returned (inr e), emit EvNodeStarted w)).
  { unfold StartIPFSNode, GetIPFSNodeIdentity, w3s_NewClient.
    rewrite Hpk, Hid, Hnode.
    destruct Hfail as [Hapi | [Hapi Hcl]]; rewrite Hapi; [reflexivity |].
    rewrite Hcl. reflexivity. }
  assert (Hrun : CreateProfile cfg w = (Returned (Some e), emit EvNodeStarted w)).
  { unfold CreateProfile, PanicIfNotInitialized. rewrite Hdid, Hinit, Hens.
    rewrite (bind_Returned (ret tt) _ w w tt eq_refl).
    rewrite (bind_Returned _ _ _ _ _ Hstart). reflexivity. }
  assert (Htr : trace_of (CreateProfile cfg) w = [EvNodeStarted]).
  { apply trace_of_extends. rewrite Hrun. reflexivity. }
  rewrite Htr. repeat split; assumption.
Qed.

(** X15. A public key that cannot be unmarshalled makes [StartIPFSNode], and
    with it [CreateProfile], panic before anything is started: there is
    no error return for it. *)
Theorem CreateProfile_bad_key_panics (cfg : Config) (w : World) (e : error) :
  fault OpUnmarshalPublicKey = Some e ->
  (exists why, StartIPFSNode (cfg_IPFSPrivKey cfg) (cfg_IPFSPubKey cfg) w
               = (Panicked why, w)) /\
  (fault OpDidParse = None -> cfg_Initialized cfg = true ->
   fault OpResolveENS = None ->
   exists why, CreateProfile cfg w = (Panicked why, w)).
Proof.
  intros Hpk.
  assert (Hstart : StartIPFSNode (cfg_IPFSPrivKey cfg) (cfg_IPFSPubKey cfg) w
                   = (Panicked "could not unmarshal public key", w)).
  { unfold StartIPFSNode, GetIPFSNodeIdentity. rewrite Hpk. reflexivity. }
  split; [eexists; exact Hstart |].
  intros Hdid Hinit Hens. eexists.
  unfold CreateProfile, PanicIfNotInitialized. rewrite Hdid, Hinit, Hens.
  rewrite (bind_Returned (ret tt) _ w w tt eq_refl).
  rewrite (bind_Panicked _ _ _ _ _ Hstart). reflexivity.
Qed.

(** X16. On every run of [CreateProfile], started or not, the shutdown
    function runs at most once, only on a node that was started, and then
    as the last thing the operation does. *)
Theorem CreateProfile_shutdown_discipline (cfg : Config) (w : World) :
  let tr := trace_of (CreateProfile cfg) w in
  (shutdown_calls tr <= 1)%nat /\
  (In EvNodeClosed tr ->
     head tr = Some EvNodeStarted /\ last tr = Some EvNodeClosed /\
     shutdown_calls tr = 1%nat).
Proof.
  cbv zeta.
  destruct (CreateProfile_trace cfg w) as [| | steps Hsteps].
  - split; [cbn; lia | intros []].
  - split; [cbn; lia | intros [H | []]; discriminate H].
  - assert (Hcount : shutdown_calls (EvNodeStarted :: steps ++ [EvNodeClosed]) = 1%nat).
    { change (EvNodeStarted :: steps ++ [EvNodeClosed])
        with ([EvNodeStarted] ++ steps ++ [EvNodeClosed]).
      rewrite !shutdown_calls_app, (pipeline_steps_no_shutdown _ _ Hsteps).
      reflexivity. }
    rewrite Hcount. split; [lia |]. intros _.
    split; [reflexivity |]. split; [| reflexivity].
    change (EvNodeStarted :: steps ++ [EvNodeClosed])
      with ((EvNodeStarted :: steps) ++ [EvNodeClosed]).
    apply last_snoc.
Qed.





End PipelineMore.

(** The sample publish with the node built and the API refused. *)
Lemma CreateProfile_start_failure_leaves_node_witness :
  let E := Sample.env (Sample.only OpNewCoreAPI connection_refused) in
  @CreateProfile E Sample.config World_empty
    = (Returned (Some connection_refused), emit EvNodeStarted World_empty) /\
  shutdown_calls (trace_of (@CreateProfile E Sample.config) World_empty) = 0%nat.
Proof.
  cbv zeta.
  destruct (@CreateProfile_start_failure_leaves_node
              (Sample.env (Sample.only OpNewCoreAPI connection_refused))
              Sample.config World_empty connection_refused
              eq_refl eq_refl eq_refl eq_refl eq_refl eq_refl
              (or_introl eq_refl))
    as (_ & Hrun & _ & Hcount).
  split; [exact Hrun | exact Hcount].
Defined.

(** The sample publish with a public key that does not unmarshal. *)
Lemma CreateProfile_bad_key_panics_witness :
  exists why,
    @CreateProfile (Sample.env (Sample.only OpUnmarshalPublicKey (ErrLib "malformed key")))
      Sample.config World_empty = (Panicked why, World_empty).
Proof.
  apply (proj2 (@CreateProfile_bad_key_panics
                  (Sample.env (Sample.only OpUnmarshalPublicKey (ErrLib "malformed key")))
                  Sample.config World_empty (ErrLib "malformed key") eq_refl));
    reflexivity.
Defined.

(** The sample run in which every step succeeds. *)
Lemma CreateProfile_shutdown_discipline_witness :
  let tr := trace_of (@CreateProfile (Sample.env Sample.no_fault) Sample.config)
              World_empty in
  head tr = Some EvNodeStarted /\ last tr = Some EvNodeClosed /\
  shutdown_calls tr = 1%nat.
Proof.
  cbv zeta.
  apply (proj2 (@CreateProfile_shutdown_discipline (Sample.env Sample.no_fault)
                  Sample.config World_empty)).
  rewrite sample_trace. cbn. tauto.
Defined.



(** ** LoadUser, continued *)

Section LoadUserMore.
Context {E : Env}.

(** X19. [LoadUser] returns a nil error exactly when the file exists and
    neither [os.Stat] nor [os.ReadFile] fails, whether or not its contents
    are JSON; and whenever it returns an error the user it returns is the
    zero value. *)
Theorem LoadUser_error_iff (file : string) :
  (snd (LoadUser file) = None <->
     fault OpStat = None /\ fault OpReadFile = None /\ fs file <> None) /\
  (snd (LoadUser file) <> None -> fst (LoadUser file) = User_zero).
Proof.
  unfold LoadUser, os_Stat, os_ReadFile, json_Unmarshal.
  destruct (fault OpStat) as [e|]; [cbn; intuition congruence |].
  destruct (fs file) as [u|]; [| cbn; intuition congruence].
  destruct (fault OpReadFile) as [e|]; [cbn; intuition congruence |].
  destruct (json_User u) as [v|e]; cbn; intuition congruence.
Qed.

End LoadUserMore.

(** On the sample disk: [notes.txt] exists, [missing.json] does not. *)
Lemma LoadUser_error_iff_witness :
  snd (@LoadUser (Sample.env Sample.no_fault) "notes.txt") = None /\
  fst (@LoadUser (Sample.env Sample.no_fault) "missing.json") = User_zero.
Proof.
  split.
  - apply (proj1 (@LoadUser_error_iff (Sample.env Sample.no_fault) "notes.txt")).
    repeat split; discriminate.
  - apply (proj2 (@LoadUser_error_iff (Sample.env Sample.no_fault) "missing.json")).
    discriminate.
Defined.

(** ** Pinning at Web3.Storage *)

Section PinFacts.
Context {E : Env} {X : Extern}.

(** X20. With a node that reports no local address [PinIPFSBlockToW3S] panics
    on [us[0]] with nothing changed; an error of [LocalAddrs] is returned
    with nothing changed; otherwise it asks for the pin with the first
    address as the only origin, whatever the other addresses are: a
    request the service refuses returns its error and changes nothing, a
    request it accepts returns nil and adds the Cid of the block, with
    that origin, to the pins the service holds.  The local node is never
    changed. *)
Theorem PinIPFSBlockToW3S_first_origin (tok : string) (blk : Block) (pw : PinWorld) :
  fault OpW3SNewClient = None ->
  (swarm_LocalAddrs = inl [] ->
     PinIPFSBlockToW3S tok (Some blk) pw = (Panicked "index out of range", pw)) /\
  (forall e, swarm_LocalAddrs = inr e ->
     PinIPFSBlockToW3S tok (Some blk) pw = (Returned (Some e), pw)) /\
  (forall a rest, swarm_LocalAddrs = inl (a :: rest) ->
     (forall e, w3s_Pin_refusal (blk_cid blk) (WithPinOrigin a) = Some e ->
        PinIPFSBlockToW3S tok (Some blk) pw = (Returned (Some e), pw)) /\
     (w3s_Pin_refusal (blk_cid blk) (WithPinOrigin a) = None ->
        PinIPFSBlockToW3S tok (Some blk) pw
          = (Returned None,
             mkPinWorld (pw_world pw)
               (pw_pins pw ++ [(blk_cid blk, WithPinOrigin a)])))) /\
  pw_world (snd (PinIPFSBlockToW3S tok (Some blk) pw)) = pw_world pw.
Proof.
  intros Hclient. unfold PinIPFSBlockToW3S, w3s_NewClient, w3s_Pin.
  rewrite Hclient.
  split; [| split; [| split]].
  - intros ->. reflexivity.
  - intros e ->. reflexivity.
  - intros a rest ->. cbn [map lookup list_lookup]. split.
    + intros e ->. reflexivity.
    + intros ->. reflexivity.
  - destruct swarm_LocalAddrs as [[|a rest]|e]; cbn [map lookup list_lookup];
      try reflexivity.
    destruct (w3s_Pin_refusal (blk_cid blk) (WithPinOrigin a)); reflexivity.
Qed.

(** [PinIPLDBlockToW3S] on a block returns either an error, with the
    undefined Cid and nothing changed, or the Cid of the block, and then
    the block was in the local store and its Cid is among the remote
    archives, with both stores of the node and the remote names as
    before. *)
Theorem PinIPLDBlockToW3S_result
    (tok : string) (blk : Block) (w w' : World) (c : Cid) (err : option error) :
  PinIPLDBlockToW3S tok (Some blk) w = (Returned (c, err), w') ->
  (forall e, err = Some e -> c = cid_Undef /\ w' = w) /\
  (err = None ->
     c = blk_cid blk /\
     blockstore w !! blk_cid blk <> None /\
     blk_cid blk ∈ w3s_cars w' /\
     blockstore w' = blockstore w /\ pins w' = pins w /\
     w3s_names w' = w3s_names w).
Proof.
  unfold PinIPLDBlockToW3S, w3s_NewClient, w3s_WriteCar, w3s_PutCar,
    bind, gets, ret, modify. cbv beta.
  destruct (fault OpW3SNewClient) as [e0|].
  { intros H. injection H as <- <- <-. split; [auto | discriminate]. }
  destruct (fault OpWriteCar) as [e0|].
  { intros H. injection H as <- <- <-. split; [auto | discriminate]. }
  destruct (blockstore w !! blk_cid blk) as [data|] eqn:Hdata.
  2:{ intros H. injection H as <- <- <-. split; [auto | discriminate]. }
  destruct (fault OpPutCar) as [e0|]; cbn [snd fst car_root].
  { intros H. injection H as <- <- <-. split; [auto | discriminate]. }
  intros H. injection H as <- <- <-. split; [discriminate |].
  intros _. unfold add_car. cbn [w3s_cars blockstore pins w3s_names car_root].
  repeat split; try reflexivity; try discriminate.
  apply elem_of_union_l, elem_of_singleton. reflexivity.
Qed.

End PinFacts.

(** A node without addresses, and a node with two of which only the
    first is reachable by the service: the pin is held with the first. *)
Lemma PinIPFSBlockToW3S_first_origin_witness :
  let E := Sample.env Sample.no_fault in
  let blk := mkBlock [x7b; x7d] Sample.key_cid in
  let pw := mkPinWorld World_empty [] in
  @PinIPFSBlockToW3S E (SampleExtern.extern []) "w3s-token" (Some blk) pw
    = (Panicked "index out of range", pw) /\
  @PinIPFSBlockToW3S E
     (SampleExtern.extern ["/ip4/127.0.0.1/tcp/4001"; "/ip4/10.0.0.7/tcp/4001"])
     "w3s-token" (Some blk) pw
    = (Returned None,
       mkPinWorld World_empty
         [(Sample.key_cid, WithPinOrigin "/ip4/127.0.0.1/tcp/4001")]) /\
  @PinIPFSBlockToW3S E
     (SampleExtern.extern ["/ip4/10.0.0.7/tcp/4001"; "/ip4/127.0.0.1/tcp/4001"])
     "w3s-token" (Some blk) pw
    = (Returned (Some (ErrLib "origin unreachable")), pw).
Proof.
  cbv zeta. split; [| split].
  - apply (proj1 (@PinIPFSBlockToW3S_first_origin (Sample.env Sample.no_fault)
                    (SampleExtern.extern []) "w3s-token"
                    (mkBlock [x7b; x7d] Sample.key_cid)
                    (mkPinWorld World_empty []) eq_refl)).
    reflexivity.
  - apply (proj2 (proj1 (proj2 (proj2
             (@PinIPFSBlockToW3S_first_origin (Sample.env Sample.no_fault)
                (SampleExtern.extern
                   ["/ip4/127.0.0.1/tcp/4001"; "/ip4/10.0.0.7/tcp/4001"])
                "w3s-token" (mkBlock [x7b; x7d] Sample.key_cid)
                (mkPinWorld World_empty []) eq_refl)))
             "/ip4/127.0.0.1/tcp/4001" ["/ip4/10.0.0.7/tcp/4001"] eq_refl)).
    reflexivity.
  - apply (proj1 (proj1 (proj2 (proj2
             (@PinIPFSBlockToW3S_first_origin (Sample.env Sample.no_fault)
                (SampleExtern.extern
                   ["/ip4/10.0.0.7/tcp/4001"; "/ip4/127.0.0.1/tcp/4001"])
                "w3s-token" (mkBlock [x7b; x7d] Sample.key_cid)
                (mkPinWorld World_empty []) eq_refl)))
             "/ip4/10.0.0.7/tcp/4001" ["/ip4/127.0.0.1/tcp/4001"] eq_refl)
           (ErrLib "origin unreachable")).
    reflexivity.
Defined.

(** A block the local store does not hold cannot be archived. *)
Lemma PinIPLDBlockToW3S_result_witness :
  let E := Sample.env Sample.no_fault in
  let blk := mkBlock [x7b; x7d] Sample.key_cid in
  snd (@PinIPLDBlockToW3S E "w3s-token" (Some blk) World_empty) = World_empty /\
  Sample.key_cid ∈
    w3s_cars (snd (@PinIPLDBlockToW3S E "w3s-token" (Some blk)
                     (Sample.holding Sample.key_cid [x7b; x7d]))).
Proof.
  cbv zeta. split.
  - apply (proj1 (@PinIPLDBlockToW3S_result (Sample.env Sample.no_fault)
                    "w3s-token" (mkBlock [x7b; x7d] Sample.key_cid)
                    World_empty _ cid_Undef (Some ErrNotFound)
                    ltac:(vm_compute; reflexivity))
             ErrNotFound eq_refl).
  - apply (proj2 (@PinIPLDBlockToW3S_result (Sample.env Sample.no_fault)
                    "w3s-token" (mkBlock [x7b; x7d] Sample.key_cid)
                    (Sample.holding Sample.key_cid [x7b; x7d]) _
                    Sample.key_cid None ltac:(vm_compute; reflexivity))
             eq_refl).
Defined.

(** ** Nostr events as linked nodes *)

Section NostrFacts.
Context {E : Env} {X : Extern}.

(** The link of a Nostr event: the Cid of its encoded node under the
    fixed parameters. *)
Lemma PutNostrEvent_link (ipfs : IPFSCore) (evt : NostrEvent) (w : World) :
  fault OpBuildMap = None ->
  PutNostrEventAsIPLDLink ipfs evt w
    = LS_Store ipfs PutNostrEvent_Prefix (dagjson_event evt) w.
Proof.
  intros Hmap. unfold PutNostrEventAsIPLDLink. rewrite Hmap. reflexivity.
Qed.

(** X21. Round trip of [PutNostrEventAsIPLDLink]: when the node can be built,
    the binary form of its link parses back to the link, the encoded node
    decodes and the local node works, the function returns the link of
    the encoded event, and [OpenRead] on that link returns exactly the
    encoded event, also when the remote archive failed and an error came
    back with the link. *)
Theorem PutNostrEvent_then_OpenRead (ipfs : IPFSCore) (evt : NostrEvent) (w : World) :
  let lnk := mkCid PutNostrEvent_Prefix
               (mh_digest mh_SHA3_384 48 (dagjson_event evt)) in
  fault OpBuildMap = None ->
  CidFromBytes (Link_Binary lnk) = inl lnk ->
  fault OpNewBlockWithCid = None ->
  fault OpPinningAdd = None ->
  fault OpBlockGet = None ->
  fault OpReadAll = None ->
  decode_error lnk (dagjson_event evt) = None ->
  exists err w',
    PutNostrEventAsIPLDLink ipfs evt w = (Returned (Some lnk, err), w') /\
    fst (OpenRead lnk w')
      = Returned (Some (bytes_NewReader (dagjson_event evt)), None).
Proof.
  cbv zeta. intros Hmap Hparse Hblk Hpin Hget Hread Hdec.
  rewrite (PutNostrEvent_link ipfs evt w Hmap).
  unfold LS_Store. cbn [MhType MhLength PutNostrEvent_Prefix].
  destruct (Put_then_OpenRead ipfs _ _ _ (dagjson_event evt) w
              Hparse Hparse Hblk Hpin Hget Hread Hdec)
    as (err & w' & Hput & _ & Hopen).
  exists err, w'.
  rewrite (bind_Returned _ _ _ _ _ Hput). split; [reflexivity | exact Hopen].
Qed.



End NostrFacts.

(** The sample event with the upload of the archive refused. *)
Lemma PutNostrEvent_then_OpenRead_witness :
  let E := Sample.env (Sample.only OpPutCar connection_refused) in
  let lnk := mkCid PutNostrEvent_Prefix
               (Sample.digest mh_SHA3_384 48 (list_byte_of_string "0")) in
  exists err w',
    @PutNostrEventAsIPLDLink E (mkIPFSCore "none") sample_event World_empty
      = (Returned (Some lnk, err), w') /\
    fst (@OpenRead E lnk w')
      = Returned (Some (bytes_NewReader (list_byte_of_string "0")), None).
Proof.
  cbv zeta.
  apply (@PutNostrEvent_then_OpenRead
           (Sample.env (Sample.only OpPutCar connection_refused))
           (mkIPFSCore "none") sample_event World_empty); reflexivity.
Defined.


(** ** Successive publishes *)

Section RepublishFacts.
Context {E : Env}.

(** X10. Two successive successful publishes of the same target under the
    same key store records with the same sequence number: the record the
    first one stored under the name is not what the second one looks up,
    as long as the name is not itself the text of the target path. *)
Theorem republish_same_sequence
    (tok : string) (c : Cid) (privkey pubkey : bytes) (w w1 w2 : World) :
  pubkey_name pubkey <> Path_String (IpfsPath c) ->
  PublishIPNSRecordForDAGNodeToW3S tok c privkey pubkey w = (Returned None, w1) ->
  PublishIPNSRecordForDAGNodeToW3S tok c privkey pubkey w1 = (Returned None, w2) ->
  exists r1 r2,
    w3s_names w1 !! pubkey_name pubkey = Some r1 /\
    w3s_names w2 !! pubkey_name pubkey = Some r2 /\
    rec_sequence r2 = rec_sequence r1.
Proof.
  intros Hne Hrun1 Hrun2.
  destruct (Publish_cases tok c privkey pubkey w) as [[e0 H] | H];
    rewrite H in Hrun1; [discriminate Hrun1 |].
  injection Hrun1 as <-.
  destruct (Publish_cases tok c privkey pubkey
              (set_name (pubkey_name pubkey) (new_record w c privkey pubkey) w))
    as [[e0 H'] | H'];
    rewrite H' in Hrun2; [discriminate Hrun2 |].
  injection Hrun2 as <-.
  eexists _, _.
  unfold set_name at 1 3. cbn [w3s_names].
  split; [apply lookup_insert_eq |]. split; [apply lookup_insert_eq |].
  unfold new_record, next_sequence, set_name. cbn [rec_sequence w3s_names].
  rewrite lookup_insert_ne by exact Hne. reflexivity.
Qed.

End RepublishFacts.

(** The sample publish, twice over. *)
Lemma republish_same_sequence_witness :
  let E := Sample.env Sample.no_fault in
  let w1 := snd (@PublishIPNSRecordForDAGNodeToW3S E "w3s-token" Sample.alice_cid
                   [x01] [x02] World_empty) in
  let w2 := snd (@PublishIPNSRecordForDAGNodeToW3S E "w3s-token" Sample.alice_cid
                   [x01] [x02] w1) in
  exists r1 r2,
    w3s_names w1 !! Sample.alice_name = Some r1 /\
    w3s_names w2 !! Sample.alice_name = Some r2 /\
    rec_sequence r2 = rec_sequence r1.
Proof.
  cbv zeta.
  apply (@republish_same_sequence (Sample.env Sample.no_fault) "w3s-token"
           Sample.alice_cid [x01] [x02] World_empty).
  - vm_compute. discriminate.
  - vm_compute. reflexivity.
  - vm_compute. reflexivity.
Defined.
